(** * convertMoxToDeckboxCsv: the row converter, embedded and verified

    A shallow embedding of [src/convertMoxToDeckboxCsv.py]: the two static
    edition tables, [output_columns], [format_price], [convert_row] and the
    read-convert-write loop, followed by the properties of the
    specification that are checked against them.

    Modelling decisions.
    - A Python [str] is a list of Unicode code points, [pystr]; a literal of
      the source is written [str "..."]. [str.strip], [str.upper] and the
      digits that [Decimal] accepts follow the character database of
      CPython 3.11 (Unicode 14.0.0): the whitespace set, the table of the
      code points that [str.upper] changes, the decimal digits of every
      script.
    - A cell handed over by [csv.DictReader] is a [str] or [None] (short
      rows are padded with [None]); surplus cells are collected in a list
      under the key [None].
    - [decimal.Decimal] is CPython's C implementation on a 64-bit build,
      under the default context (28 digits, round-half-even, the
      [InvalidOperation] trap enabled). The text of a number is first
      brought to ASCII, as the C code does, then parsed.
    - A call either returns a value or raises: [result].
    - The file handles are reduced to the records written to the output
      file and to the lines of cells read from the input file, together
      with the exception that ended the reading, if any; splitting the text
      of the input file into cells is [csv.reader]'s work and is taken as
      given. The cells come from a file decoded as UTF-8, so they hold
      nothing that the encoder of the output file refuses.
    - The converter is first written as functions of its arguments. What it
      could read or change besides them (the module-level tables, the
      sticky flags of the decimal context, the output file) is made
      explicit in a second, state-passing transcription, [World]; the two
      are proved to agree. *)

From Stdlib Require Import ZArith NArith Ascii String DecimalString.
From Stdlib Require Import DecimalFacts DecimalPos DecimalN.
From stdpp Require Import gmap strings list.

Local Open Scope Z_scope.

(** ** Values, exceptions *)

(** A [str]: its code points. *)
Definition pystr : Type := list N.

(** A literal of the source: one code point per character. *)
Fixpoint str (s : string) : pystr :=
  match s with
  | EmptyString => []
  | String c s' => N_of_ascii c :: str s'
  end.

Inductive PyVal : Type :=
| PNone
| PStr (s : pystr).

Global Instance PyVal_eq_dec : EqDecision PyVal.
Proof. solve_decision. Defined.

(** The exceptions that can end a run: [decimal.InvalidOperation],
    [ValueError], and the two that reading the input file can raise,
    [csv.Error] and [UnicodeDecodeError]. *)
Inductive exn : Type :=
| InvalidOperation
| ValueError
| CsvError
| UnicodeDecodeError.

Global Instance exn_eq_dec : EqDecision exn.
Proof. solve_decision. Defined.

(** [issubclass]: [UnicodeDecodeError] derives from [ValueError]. *)
Definition issubclass (e cls : exn) : bool :=
  match e, cls with
  | UnicodeDecodeError, ValueError => true
  | _, _ => bool_decide (e = cls)
  end.

(** [except (cls1, cls2, ...)] catches [e]. *)
Definition caught_by (classes : list exn) (e : exn) : bool :=
  existsb (issubclass e) classes.

Inductive result (A : Type) : Type :=
| Returns (a : A)
| Raises (e : exn).

Arguments Returns {A} a.
Arguments Raises {A} e.

Global Instance result_ret : MRet result := @Returns.

Global Instance result_bind : MBind result := λ A B k m,
  match m with
  | Returns a => k a
  | Raises e => Raises e
  end.

(** ** The [str] methods the converter calls *)

Module PyStr.

(** [str.isspace] on one code point, which is also the set that
    [str.strip] removes: TAB..CR, FS..US, space, NEL, NBSP, OGHAM SPACE
    MARK, EN QUAD..HAIR SPACE, LINE and PARAGRAPH SEPARATOR, NARROW NBSP,
    MEDIUM MATHEMATICAL SPACE, IDEOGRAPHIC SPACE. *)
Definition isspace (c : N) : bool :=
  ((9 <=? c) && (c <=? 13)
   || (28 <=? c) && (c <=? 32)
   || (c =? 133) || (c =? 160) || (c =? 5760)
   || (8192 <=? c) && (c <=? 8202)
   || (c =? 8232) || (c =? 8233) || (c =? 8239) || (c =? 8287)
   || (c =? 12288))%N.

(** The code points that [str.upper] changes, each with its uppercase
    form, which can be several code points long (sharp s gives SS). *)
Definition upper_entries : list (N * list N) := [
  (97, [65]); (98, [66]); (99, [67]); (100, [68]); (101, [69]); (102, [70]);
  (103, [71]); (104, [72]); (105, [73]); (106, [74]); (107, [75]);
  (108, [76]); (109, [77]); (110, [78]); (111, [79]); (112, [80]);
  (113, [81]); (114, [82]); (115, [83]); (116, [84]); (117, [85]);
  (118, [86]); (119, [87]); (120, [88]); (121, [89]); (122, [90]);
  (181, [924]); (223, [83; 83]); (224, [192]); (225, [193]); (226, [194]);
  (227, [195]); (228, [196]); (229, [197]); (230, [198]); (231, [199]);
  (232, [200]); (233, [201]); (234, [202]); (235, [203]); (236, [204]);
  (237, [205]); (238, [206]); (239, [207]); (240, [208]); (241, [209]);
  (242, [210]); (243, [211]); (244, [212]); (245, [213]); (246, [214]);
  (248, [216]); (249, [217]); (250, [218]); (251, [219]); (252, [220]);
  (253, [221]); (254, [222]); (255, [376]); (257, [256]); (259, [258]);
  (261, [260]); (263, [262]); (265, [264]); (267, [266]); (269, [268]);
  (271, [270]); (273, [272]); (275, [274]); (277, [276]); (279, [278]);
  (281, [280]); (283, [282]); (285, [284]); (287, [286]); (289, [288]);
  (291, [290]); (293, [292]); (295, [294]); (297, [296]); (299, [298]);
  (301, [300]); (303, [302]); (305, [73]); (307, [306]); (309, [308]);
  (311, [310]); (314, [313]); (316, [315]); (318, [317]); (320, [319]);
  (322, [321]); (324, [323]); (326, [325]); (328, [327]); (329, [700; 78]);
  (331, [330]); (333, [332]); (335, [334]); (337, [336]); (339, [338]);
  (341, [340]); (343, [342]); (345, [344]); (347, [346]); (349, [348]);
  (351, [350]); (353, [352]); (355, [354]); (357, [356]); (359, [358]);
  (361, [360]); (363, [362]); (365, [364]); (367, [366]); (369, [368]);
  (371, [370]); (373, [372]); (375, [374]); (378, [377]); (380, [379]);
  (382, [381]); (383, [83]); (384, [579]); (387, [386]); (389, [388]);
  (392, [391]); (396, [395]); (402, [401]); (405, [502]); (409, [408]);
  (410, [573]); (414, [544]); (417, [416]); (419, [418]); (421, [420]);
  (424, [423]); (429, [428]); (432, [431]); (436, [435]); (438, [437]);
  (441, [440]); (445, [444]); (447, [503]); (453, [452]); (454, [452]);
  (456, [455]); (457, [455]); (459, [458]); (460, [458]); (462, [461]);
  (464, [463]); (466, [465]); (468, [467]); (470, [469]); (472, [471]);
  (474, [473]); (476, [475]); (477, [398]); (479, [478]); (481, [480]);
  (483, [482]); (485, [484]); (487, [486]); (489, [488]); (491, [490]);
  (493, [492]); (495, [494]); (496, [74; 780]); (498, [497]); (499, [497]);
  (501, [500]); (505, [504]); (507, [506]); (509, [508]); (511, [510]);
  (513, [512]); (515, [514]); (517, [516]); (519, [518]); (521, [520]);
  (523, [522]); (525, [524]); (527, [526]); (529, [528]); (531, [530]);
  (533, [532]); (535, [534]); (537, [536]); (539, [538]); (541, [540]);
  (543, [542]); (547, [546]); (549, [548]); (551, [550]); (553, [552]);
  (555, [554]); (557, [556]); (559, [558]); (561, [560]); (563, [562]);
  (572, [571]); (575, [11390]); (576, [11391]); (578, [577]); (583, [582]);
  (585, [584]); (587, [586]); (589, [588]); (591, [590]); (592, [11375]);
  (593, [11373]); (594, [11376]); (595, [385]); (596, [390]); (598, [393]);
  (599, [394]); (601, [399]); (603, [400]); (604, [42923]); (608, [403]);
  (609, [42924]); (611, [404]); (613, [42893]); (614, [42922]); (616, [407]);
  (617, [406]); (618, [42926]); (619, [11362]); (620, [42925]); (623, [412]);
  (625, [11374]); (626, [413]); (629, [415]); (637, [11364]); (640, [422]);
  (642, [42949]); (643, [425]); (647, [42929]); (648, [430]); (649, [580]);
  (650, [433]); (651, [434]); (652, [581]); (658, [439]); (669, [42930]);
  (670, [42928]); (837, [921]); (881, [880]); (883, [882]); (887, [886]);
  (891, [1021]); (892, [1022]); (893, [1023]); (912, [921; 776; 769]);
  (940, [902]); (941, [904]); (942, [905]); (943, [906]);
  (944, [933; 776; 769]); (945, [913]); (946, [914]); (947, [915]);
  (948, [916]); (949, [917]); (950, [918]); (951, [919]); (952, [920]);
  (953, [921]); (954, [922]); (955, [923]); (956, [924]); (957, [925]);
  (958, [926]); (959, [927]); (960, [928]); (961, [929]); (962, [931]);
  (963, [931]); (964, [932]); (965, [933]); (966, [934]); (967, [935]);
  (968, [936]); (969, [937]); (970, [938]); (971, [939]); (972, [908]);
  (973, [910]); (974, [911]); (976, [914]); (977, [920]); (981, [934]);
  (982, [928]); (983, [975]); (985, [984]); (987, [986]); (989, [988]);
  (991, [990]); (993, [992]); (995, [994]); (997, [996]); (999, [998]);
  (1001, [1000]); (1003, [1002]); (1005, [1004]); (1007, [1006]);
  (1008, [922]); (1009, [929]); (1010, [1017]); (1011, [895]); (1013, [917]);
  (1016, [1015]); (1019, [1018]); (1072, [1040]); (1073, [1041]);
  (1074, [1042]); (1075, [1043]); (1076, [1044]); (1077, [1045]);
  (1078, [1046]); (1079, [1047]); (1080, [1048]); (1081, [1049]);
  (1082, [1050]); (1083, [1051]); (1084, [1052]); (1085, [1053]);
  (1086, [1054]); (1087, [1055]); (1088, [1056]); (1089, [1057]);
  (1090, [1058]); (1091, [1059]); (1092, [1060]); (1093, [1061]);
  (1094, [1062]); (1095, [1063]); (1096, [1064]); (1097, [1065]);
  (1098, [1066]); (1099, [1067]); (1100, [1068]); (1101, [1069]);
  (1102, [1070]); (1103, [1071]); (1104, [1024]); (1105, [1025]);
  (1106, [1026]); (1107, [1027]); (1108, [1028]); (1109, [1029]);
  (1110, [1030]); (1111, [1031]); (1112, [1032]); (1113, [1033]);
  (1114, [1034]); (1115, [1035]); (1116, [1036]); (1117, [1037]);
  (1118, [1038]); (1119, [1039]); (1121, [1120]); (1123, [1122]);
  (1125, [1124]); (1127, [1126]); (1129, [1128]); (1131, [1130]);
  (1133, [1132]); (1135, [1134]); (1137, [1136]); (1139, [1138]);
  (1141, [1140]); (1143, [1142]); (1145, [1144]); (1147, [1146]);
  (1149, [1148]); (1151, [1150]); (1153, [1152]); (1163, [1162]);
  (1165, [1164]); (1167, [1166]); (1169, [1168]); (1171, [1170]);
  (1173, [1172]); (1175, [1174]); (1177, [1176]); (1179, [1178]);
  (1181, [1180]); (1183, [1182]); (1185, [1184]); (1187, [1186]);
  (1189, [1188]); (1191, [1190]); (1193, [1192]); (1195, [1194]);
  (1197, [1196]); (1199, [1198]); (1201, [1200]); (1203, [1202]);
  (1205, [1204]); (1207, [1206]); (1209, [1208]); (1211, [1210]);
  (1213, [1212]); (1215, [1214]); (1218, [1217]); (1220, [1219]);
  (1222, [1221]); (1224, [1223]); (1226, [1225]); (1228, [1227]);
  (1230, [1229]); (1231, [1216]); (1233, [1232]); (1235, [1234]);
  (1237, [1236]); (1239, [1238]); (1241, [1240]); (1243, [1242]);
  (1245, [1244]); (1247, [1246]); (1249, [1248]); (1251, [1250]);
  (1253, [1252]); (1255, [1254]); (1257, [1256]); (1259, [1258]);
  (1261, [1260]); (1263, [1262]); (1265, [1264]); (1267, [1266]);
  (1269, [1268]); (1271, [1270]); (1273, [1272]); (1275, [1274]);
  (1277, [1276]); (1279, [1278]); (1281, [1280]); (1283, [1282]);
  (1285, [1284]); (1287, [1286]); (1289, [1288]); (1291, [1290]);
  (1293, [1292]); (1295, [1294]); (1297, [1296]); (1299, [1298]);
  (1301, [1300]); (1303, [1302]); (1305, [1304]); (1307, [1306]);
  (1309, [1308]); (1311, [1310]); (1313, [1312]); (1315, [1314]);
  (1317, [1316]); (1319, [1318]); (1321, [1320]); (1323, [1322]);
  (1325, [1324]); (1327, [1326]); (1377, [1329]); (1378, [1330]);
  (1379, [1331]); (1380, [1332]); (1381, [1333]); (1382, [1334]);
  (1383, [1335]); (1384, [1336]); (1385, [1337]); (1386, [1338]);
  (1387, [1339]); (1388, [1340]); (1389, [1341]); (1390, [1342]);
  (1391, [1343]); (1392, [1344]); (1393, [1345]); (1394, [1346]);
  (1395, [1347]); (1396, [1348]); (1397, [1349]); (1398, [1350]);
  (1399, [1351]); (1400, [1352]); (1401, [1353]); (1402, [1354]);
  (1403, [1355]); (1404, [1356]); (1405, [1357]); (1406, [1358]);
  (1407, [1359]); (1408, [1360]); (1409, [1361]); (1410, [1362]);
  (1411, [1363]); (1412, [1364]); (1413, [1365]); (1414, [1366]);
  (1415, [1333; 1362]); (4304, [7312]); (4305, [7313]); (4306, [7314]);
  (4307, [7315]); (4308, [7316]); (4309, [7317]); (4310, [7318]);
  (4311, [7319]); (4312, [7320]); (4313, [7321]); (4314, [7322]);
  (4315, [7323]); (4316, [7324]); (4317, [7325]); (4318, [7326]);
  (4319, [7327]); (4320, [7328]); (4321, [7329]); (4322, [7330]);
  (4323, [7331]); (4324, [7332]); (4325, [7333]); (4326, [7334]);
  (4327, [7335]); (4328, [7336]); (4329, [7337]); (4330, [7338]);
  (4331, [7339]); (4332, [7340]); (4333, [7341]); (4334, [7342]);
  (4335, [7343]); (4336, [7344]); (4337, [7345]); (4338, [7346]);
  (4339, [7347]); (4340, [7348]); (4341, [7349]); (4342, [7350]);
  (4343, [7351]); (4344, [7352]); (4345, [7353]); (4346, [7354]);
  (4349, [7357]); (4350, [7358]); (4351, [7359]); (5112, [5104]);
  (5113, [5105]); (5114, [5106]); (5115, [5107]); (5116, [5108]);
  (5117, [5109]); (7296, [1042]); (7297, [1044]); (7298, [1054]);
  (7299, [1057]); (7300, [1058]); (7301, [1058]); (7302, [1066]);
  (7303, [1122]); (7304, [42570]); (7545, [42877]); (7549, [11363]);
  (7566, [42950]); (7681, [7680]); (7683, [7682]); (7685, [7684]);
  (7687, [7686]); (7689, [7688]); (7691, [7690]); (7693, [7692]);
  (7695, [7694]); (7697, [7696]); (7699, [7698]); (7701, [7700]);
  (7703, [7702]); (7705, [7704]); (7707, [7706]); (7709, [7708]);
  (7711, [7710]); (7713, [7712]); (7715, [7714]); (7717, [7716]);
  (7719, [7718]); (7721, [7720]); (7723, [7722]); (7725, [7724]);
  (7727, [7726]); (7729, [7728]); (7731, [7730]); (7733, [7732]);
  (7735, [7734]); (7737, [7736]); (7739, [7738]); (7741, [7740]);
  (7743, [7742]); (7745, [7744]); (7747, [7746]); (7749, [7748]);
  (7751, [7750]); (7753, [7752]); (7755, [7754]); (7757, [7756]);
  (7759, [7758]); (7761, [7760]); (7763, [7762]); (7765, [7764]);
  (7767, [7766]); (7769, [7768]); (7771, [7770]); (7773, [7772]);
  (7775, [7774]); (7777, [7776]); (7779, [7778]); (7781, [7780]);
  (7783, [7782]); (7785, [7784]); (7787, [7786]); (7789, [7788]);
  (7791, [7790]); (7793, [7792]); (7795, [7794]); (7797, [7796]);
  (7799, [7798]); (7801, [7800]); (7803, [7802]); (7805, [7804]);
  (7807, [7806]); (7809, [7808]); (7811, [7810]); (7813, [7812]);
  (7815, [7814]); (7817, [7816]); (7819, [7818]); (7821, [7820]);
  (7823, [7822]); (7825, [7824]); (7827, [7826]); (7829, [7828]);
  (7830, [72; 817]); (7831, [84; 776]); (7832, [87; 778]); (7833, [89; 778]);
  (7834, [65; 702]); (7835, [7776]); (7841, [7840]); (7843, [7842]);
  (7845, [7844]); (7847, [7846]); (7849, [7848]); (7851, [7850]);
  (7853, [7852]); (7855, [7854]); (7857, [7856]); (7859, [7858]);
  (7861, [7860]); (7863, [7862]); (7865, [7864]); (7867, [7866]);
  (7869, [7868]); (7871, [7870]); (7873, [7872]); (7875, [7874]);
  (7877, [7876]); (7879, [7878]); (7881, [7880]); (7883, [7882]);
  (7885, [7884]); (7887, [7886]); (7889, [7888]); (7891, [7890]);
  (7893, [7892]); (7895, [7894]); (7897, [7896]); (7899, [7898]);
  (7901, [7900]); (7903, [7902]); (7905, [7904]); (7907, [7906]);
  (7909, [7908]); (7911, [7910]); (7913, [7912]); (7915, [7914]);
  (7917, [7916]); (7919, [7918]); (7921, [7920]); (7923, [7922]);
  (7925, [7924]); (7927, [7926]); (7929, [7928]); (7931, [7930]);
  (7933, [7932]); (7935, [7934]); (7936, [7944]); (7937, [7945]);
  (7938, [7946]); (7939, [7947]); (7940, [7948]); (7941, [7949]);
  (7942, [7950]); (7943, [7951]); (7952, [7960]); (7953, [7961]);
  (7954, [7962]); (7955, [7963]); (7956, [7964]); (7957, [7965]);
  (7968, [7976]); (7969, [7977]); (7970, [7978]); (7971, [7979]);
  (7972, [7980]); (7973, [7981]); (7974, [7982]); (7975, [7983]);
  (7984, [7992]); (7985, [7993]); (7986, [7994]); (7987, [7995]);
  (7988, [7996]); (7989, [7997]); (7990, [7998]); (7991, [7999]);
  (8000, [8008]); (8001, [8009]); (8002, [8010]); (8003, [8011]);
  (8004, [8012]); (8005, [8013]); (8016, [933; 787]); (8017, [8025]);
  (8018, [933; 787; 768]); (8019, [8027]); (8020, [933; 787; 769]);
  (8021, [8029]); (8022, [933; 787; 834]); (8023, [8031]); (8032, [8040]);
  (8033, [8041]); (8034, [8042]); (8035, [8043]); (8036, [8044]);
  (8037, [8045]); (8038, [8046]); (8039, [8047]); (8048, [8122]);
  (8049, [8123]); (8050, [8136]); (8051, [8137]); (8052, [8138]);
  (8053, [8139]); (8054, [8154]); (8055, [8155]); (8056, [8184]);
  (8057, [8185]); (8058, [8170]); (8059, [8171]); (8060, [8186]);
  (8061, [8187]); (8064, [7944; 921]); (8065, [7945; 921]);
  (8066, [7946; 921]); (8067, [7947; 921]); (8068, [7948; 921]);
  (8069, [7949; 921]); (8070, [7950; 921]); (8071, [7951; 921]);
  (8072, [7944; 921]); (8073, [7945; 921]); (8074, [7946; 921]);
  (8075, [7947; 921]); (8076, [7948; 921]); (8077, [7949; 921]);
  (8078, [7950; 921]); (8079, [7951; 921]); (8080, [7976; 921]);
  (8081, [7977; 921]); (8082, [7978; 921]); (8083, [7979; 921]);
  (8084, [7980; 921]); (8085, [7981; 921]); (8086, [7982; 921]);
  (8087, [7983; 921]); (8088, [7976; 921]); (8089, [7977; 921]);
  (8090, [7978; 921]); (8091, [7979; 921]); (8092, [7980; 921]);
  (8093, [7981; 921]); (8094, [7982; 921]); (8095, [7983; 921]);
  (8096, [8040; 921]); (8097, [8041; 921]); (8098, [8042; 921]);
  (8099, [8043; 921]); (8100, [8044; 921]); (8101, [8045; 921]);
  (8102, [8046; 921]); (8103, [8047; 921]); (8104, [8040; 921]);
  (8105, [8041; 921]); (8106, [8042; 921]); (8107, [8043; 921]);
  (8108, [8044; 921]); (8109, [8045; 921]); (8110, [8046; 921]);
  (8111, [8047; 921]); (8112, [8120]); (8113, [8121]); (8114, [8122; 921]);
  (8115, [913; 921]); (8116, [902; 921]); (8118, [913; 834]);
  (8119, [913; 834; 921]); (8124, [913; 921]); (8126, [921]);
  (8130, [8138; 921]); (8131, [919; 921]); (8132, [905; 921]);
  (8134, [919; 834]); (8135, [919; 834; 921]); (8140, [919; 921]);
  (8144, [8152]); (8145, [8153]); (8146, [921; 776; 768]);
  (8147, [921; 776; 769]); (8150, [921; 834]); (8151, [921; 776; 834]);
  (8160, [8168]); (8161, [8169]); (8162, [933; 776; 768]);
  (8163, [933; 776; 769]); (8164, [929; 787]); (8165, [8172]);
  (8166, [933; 834]); (8167, [933; 776; 834]); (8178, [8186; 921]);
  (8179, [937; 921]); (8180, [911; 921]); (8182, [937; 834]);
  (8183, [937; 834; 921]); (8188, [937; 921]); (8526, [8498]);
  (8560, [8544]); (8561, [8545]); (8562, [8546]); (8563, [8547]);
  (8564, [8548]); (8565, [8549]); (8566, [8550]); (8567, [8551]);
  (8568, [8552]); (8569, [8553]); (8570, [8554]); (8571, [8555]);
  (8572, [8556]); (8573, [8557]); (8574, [8558]); (8575, [8559]);
  (8580, [8579]); (9424, [9398]); (9425, [9399]); (9426, [9400]);
  (9427, [9401]); (9428, [9402]); (9429, [9403]); (9430, [9404]);
  (9431, [9405]); (9432, [9406]); (9433, [9407]); (9434, [9408]);
  (9435, [9409]); (9436, [9410]); (9437, [9411]); (9438, [9412]);
  (9439, [9413]); (9440, [9414]); (9441, [9415]); (9442, [9416]);
  (9443, [9417]); (9444, [9418]); (9445, [9419]); (9446, [9420]);
  (9447, [9421]); (9448, [9422]); (9449, [9423]); (11312, [11264]);
  (11313, [11265]); (11314, [11266]); (11315, [11267]); (11316, [11268]);
  (11317, [11269]); (11318, [11270]); (11319, [11271]); (11320, [11272]);
  (11321, [11273]); (11322, [11274]); (11323, [11275]); (11324, [11276]);
  (11325, [11277]); (11326, [11278]); (11327, [11279]); (11328, [11280]);
  (11329, [11281]); (11330, [11282]); (11331, [11283]); (11332, [11284]);
  (11333, [11285]); (11334, [11286]); (11335, [11287]); (11336, [11288]);
  (11337, [11289]); (11338, [11290]); (11339, [11291]); (11340, [11292]);
  (11341, [11293]); (11342, [11294]); (11343, [11295]); (11344, [11296]);
  (11345, [11297]); (11346, [11298]); (11347, [11299]); (11348, [11300]);
  (11349, [11301]); (11350, [11302]); (11351, [11303]); (11352, [11304]);
  (11353, [11305]); (11354, [11306]); (11355, [11307]); (11356, [11308]);
  (11357, [11309]); (11358, [11310]); (11359, [11311]); (11361, [11360]);
  (11365, [570]); (11366, [574]); (11368, [11367]); (11370, [11369]);
  (11372, [11371]); (11379, [11378]); (11382, [11381]); (11393, [11392]);
  (11395, [11394]); (11397, [11396]); (11399, [11398]); (11401, [11400]);
  (11403, [11402]); (11405, [11404]); (11407, [11406]); (11409, [11408]);
  (11411, [11410]); (11413, [11412]); (11415, [11414]); (11417, [11416]);
  (11419, [11418]); (11421, [11420]); (11423, [11422]); (11425, [11424]);
  (11427, [11426]); (11429, [11428]); (11431, [11430]); (11433, [11432]);
  (11435, [11434]); (11437, [11436]); (11439, [11438]); (11441, [11440]);
  (11443, [11442]); (11445, [11444]); (11447, [11446]); (11449, [11448]);
  (11451, [11450]); (11453, [11452]); (11455, [11454]); (11457, [11456]);
  (11459, [11458]); (11461, [11460]); (11463, [11462]); (11465, [11464]);
  (11467, [11466]); (11469, [11468]); (11471, [11470]); (11473, [11472]);
  (11475, [11474]); (11477, [11476]); (11479, [11478]); (11481, [11480]);
  (11483, [11482]); (11485, [11484]); (11487, [11486]); (11489, [11488]);
  (11491, [11490]); (11500, [11499]); (11502, [11501]); (11507, [11506]);
  (11520, [4256]); (11521, [4257]); (11522, [4258]); (11523, [4259]);
  (11524, [4260]); (11525, [4261]); (11526, [4262]); (11527, [4263]);
  (11528, [4264]); (11529, [4265]); (11530, [4266]); (11531, [4267]);
  (11532, [4268]); (11533, [4269]); (11534, [4270]); (11535, [4271]);
  (11536, [4272]); (11537, [4273]); (11538, [4274]); (11539, [4275]);
  (11540, [4276]); (11541, [4277]); (11542, [4278]); (11543, [4279]);
  (11544, [4280]); (11545, [4281]); (11546, [4282]); (11547, [4283]);
  (11548, [4284]); (11549, [4285]); (11550, [4286]); (11551, [4287]);
  (11552, [4288]); (11553, [4289]); (11554, [4290]); (11555, [4291]);
  (11556, [4292]); (11557, [4293]); (11559, [4295]); (11565, [4301]);
  (42561, [42560]); (42563, [42562]); (42565, [42564]); (42567, [42566]);
  (42569, [42568]); (42571, [42570]); (42573, [42572]); (42575, [42574]);
  (42577, [42576]); (42579, [42578]); (42581, [42580]); (42583, [42582]);
  (42585, [42584]); (42587, [42586]); (42589, [42588]); (42591, [42590]);
  (42593, [42592]); (42595, [42594]); (42597, [42596]); (42599, [42598]);
  (42601, [42600]); (42603, [42602]); (42605, [42604]); (42625, [42624]);
  (42627, [42626]); (42629, [42628]); (42631, [42630]); (42633, [42632]);
  (42635, [42634]); (42637, [42636]); (42639, [42638]); (42641, [42640]);
  (42643, [42642]); (42645, [42644]); (42647, [42646]); (42649, [42648]);
  (42651, [42650]); (42787, [42786]); (42789, [42788]); (42791, [42790]);
  (42793, [42792]); (42795, [42794]); (42797, [42796]); (42799, [42798]);
  (42803, [42802]); (42805, [42804]); (42807, [42806]); (42809, [42808]);
  (42811, [42810]); (42813, [42812]); (42815, [42814]); (42817, [42816]);
  (42819, [42818]); (42821, [42820]); (42823, [42822]); (42825, [42824]);
  (42827, [42826]); (42829, [42828]); (42831, [42830]); (42833, [42832]);
  (42835, [42834]); (42837, [42836]); (42839, [42838]); (42841, [42840]);
  (42843, [42842]); (42845, [42844]); (42847, [42846]); (42849, [42848]);
  (42851, [42850]); (42853, [42852]); (42855, [42854]); (42857, [42856]);
  (42859, [42858]); (42861, [42860]); (42863, [42862]); (42874, [42873]);
  (42876, [42875]); (42879, [42878]); (42881, [42880]); (42883, [42882]);
  (42885, [42884]); (42887, [42886]); (42892, [42891]); (42897, [42896]);
  (42899, [42898]); (42900, [42948]); (42903, [42902]); (42905, [42904]);
  (42907, [42906]); (42909, [42908]); (42911, [42910]); (42913, [42912]);
  (42915, [42914]); (42917, [42916]); (42919, [42918]); (42921, [42920]);
  (42933, [42932]); (42935, [42934]); (42937, [42936]); (42939, [42938]);
  (42941, [42940]); (42943, [42942]); (42945, [42944]); (42947, [42946]);
  (42952, [42951]); (42954, [42953]); (42961, [42960]); (42967, [42966]);
  (42969, [42968]); (42998, [42997]); (43859, [42931]); (43888, [5024]);
  (43889, [5025]); (43890, [5026]); (43891, [5027]); (43892, [5028]);
  (43893, [5029]); (43894, [5030]); (43895, [5031]); (43896, [5032]);
  (43897, [5033]); (43898, [5034]); (43899, [5035]); (43900, [5036]);
  (43901, [5037]); (43902, [5038]); (43903, [5039]); (43904, [5040]);
  (43905, [5041]); (43906, [5042]); (43907, [5043]); (43908, [5044]);
  (43909, [5045]); (43910, [5046]); (43911, [5047]); (43912, [5048]);
  (43913, [5049]); (43914, [5050]); (43915, [5051]); (43916, [5052]);
  (43917, [5053]); (43918, [5054]); (43919, [5055]); (43920, [5056]);
  (43921, [5057]); (43922, [5058]); (43923, [5059]); (43924, [5060]);
  (43925, [5061]); (43926, [5062]); (43927, [5063]); (43928, [5064]);
  (43929, [5065]); (43930, [5066]); (43931, [5067]); (43932, [5068]);
  (43933, [5069]); (43934, [5070]); (43935, [5071]); (43936, [5072]);
  (43937, [5073]); (43938, [5074]); (43939, [5075]); (43940, [5076]);
  (43941, [5077]); (43942, [5078]); (43943, [5079]); (43944, [5080]);
  (43945, [5081]); (43946, [5082]); (43947, [5083]); (43948, [5084]);
  (43949, [5085]); (43950, [5086]); (43951, [5087]); (43952, [5088]);
  (43953, [5089]); (43954, [5090]); (43955, [5091]); (43956, [5092]);
  (43957, [5093]); (43958, [5094]); (43959, [5095]); (43960, [5096]);
  (43961, [5097]); (43962, [5098]); (43963, [5099]); (43964, [5100]);
  (43965, [5101]); (43966, [5102]); (43967, [5103]); (64256, [70; 70]);
  (64257, [70; 73]); (64258, [70; 76]); (64259, [70; 70; 73]);
  (64260, [70; 70; 76]); (64261, [83; 84]); (64262, [83; 84]);
  (64275, [1348; 1350]); (64276, [1348; 1333]); (64277, [1348; 1339]);
  (64278, [1358; 1350]); (64279, [1348; 1341]); (65345, [65313]);
  (65346, [65314]); (65347, [65315]); (65348, [65316]); (65349, [65317]);
  (65350, [65318]); (65351, [65319]); (65352, [65320]); (65353, [65321]);
  (65354, [65322]); (65355, [65323]); (65356, [65324]); (65357, [65325]);
  (65358, [65326]); (65359, [65327]); (65360, [65328]); (65361, [65329]);
  (65362, [65330]); (65363, [65331]); (65364, [65332]); (65365, [65333]);
  (65366, [65334]); (65367, [65335]); (65368, [65336]); (65369, [65337]);
  (65370, [65338]); (66600, [66560]); (66601, [66561]); (66602, [66562]);
  (66603, [66563]); (66604, [66564]); (66605, [66565]); (66606, [66566]);
  (66607, [66567]); (66608, [66568]); (66609, [66569]); (66610, [66570]);
  (66611, [66571]); (66612, [66572]); (66613, [66573]); (66614, [66574]);
  (66615, [66575]); (66616, [66576]); (66617, [66577]); (66618, [66578]);
  (66619, [66579]); (66620, [66580]); (66621, [66581]); (66622, [66582]);
  (66623, [66583]); (66624, [66584]); (66625, [66585]); (66626, [66586]);
  (66627, [66587]); (66628, [66588]); (66629, [66589]); (66630, [66590]);
  (66631, [66591]); (66632, [66592]); (66633, [66593]); (66634, [66594]);
  (66635, [66595]); (66636, [66596]); (66637, [66597]); (66638, [66598]);
  (66639, [66599]); (66776, [66736]); (66777, [66737]); (66778, [66738]);
  (66779, [66739]); (66780, [66740]); (66781, [66741]); (66782, [66742]);
  (66783, [66743]); (66784, [66744]); (66785, [66745]); (66786, [66746]);
  (66787, [66747]); (66788, [66748]); (66789, [66749]); (66790, [66750]);
  (66791, [66751]); (66792, [66752]); (66793, [66753]); (66794, [66754]);
  (66795, [66755]); (66796, [66756]); (66797, [66757]); (66798, [66758]);
  (66799, [66759]); (66800, [66760]); (66801, [66761]); (66802, [66762]);
  (66803, [66763]); (66804, [66764]); (66805, [66765]); (66806, [66766]);
  (66807, [66767]); (66808, [66768]); (66809, [66769]); (66810, [66770]);
  (66811, [66771]); (66967, [66928]); (66968, [66929]); (66969, [66930]);
  (66970, [66931]); (66971, [66932]); (66972, [66933]); (66973, [66934]);
  (66974, [66935]); (66975, [66936]); (66976, [66937]); (66977, [66938]);
  (66979, [66940]); (66980, [66941]); (66981, [66942]); (66982, [66943]);
  (66983, [66944]); (66984, [66945]); (66985, [66946]); (66986, [66947]);
  (66987, [66948]); (66988, [66949]); (66989, [66950]); (66990, [66951]);
  (66991, [66952]); (66992, [66953]); (66993, [66954]); (66995, [66956]);
  (66996, [66957]); (66997, [66958]); (66998, [66959]); (66999, [66960]);
  (67000, [66961]); (67001, [66962]); (67003, [66964]); (67004, [66965]);
  (68800, [68736]); (68801, [68737]); (68802, [68738]); (68803, [68739]);
  (68804, [68740]); (68805, [68741]); (68806, [68742]); (68807, [68743]);
  (68808, [68744]); (68809, [68745]); (68810, [68746]); (68811, [68747]);
  (68812, [68748]); (68813, [68749]); (68814, [68750]); (68815, [68751]);
  (68816, [68752]); (68817, [68753]); (68818, [68754]); (68819, [68755]);
  (68820, [68756]); (68821, [68757]); (68822, [68758]); (68823, [68759]);
  (68824, [68760]); (68825, [68761]); (68826, [68762]); (68827, [68763]);
  (68828, [68764]); (68829, [68765]); (68830, [68766]); (68831, [68767]);
  (68832, [68768]); (68833, [68769]); (68834, [68770]); (68835, [68771]);
  (68836, [68772]); (68837, [68773]); (68838, [68774]); (68839, [68775]);
  (68840, [68776]); (68841, [68777]); (68842, [68778]); (68843, [68779]);
  (68844, [68780]); (68845, [68781]); (68846, [68782]); (68847, [68783]);
  (68848, [68784]); (68849, [68785]); (68850, [68786]); (71872, [71840]);
  (71873, [71841]); (71874, [71842]); (71875, [71843]); (71876, [71844]);
  (71877, [71845]); (71878, [71846]); (71879, [71847]); (71880, [71848]);
  (71881, [71849]); (71882, [71850]); (71883, [71851]); (71884, [71852]);
  (71885, [71853]); (71886, [71854]); (71887, [71855]); (71888, [71856]);
  (71889, [71857]); (71890, [71858]); (71891, [71859]); (71892, [71860]);
  (71893, [71861]); (71894, [71862]); (71895, [71863]); (71896, [71864]);
  (71897, [71865]); (71898, [71866]); (71899, [71867]); (71900, [71868]);
  (71901, [71869]); (71902, [71870]); (71903, [71871]); (93792, [93760]);
  (93793, [93761]); (93794, [93762]); (93795, [93763]); (93796, [93764]);
  (93797, [93765]); (93798, [93766]); (93799, [93767]); (93800, [93768]);
  (93801, [93769]); (93802, [93770]); (93803, [93771]); (93804, [93772]);
  (93805, [93773]); (93806, [93774]); (93807, [93775]); (93808, [93776]);
  (93809, [93777]); (93810, [93778]); (93811, [93779]); (93812, [93780]);
  (93813, [93781]); (93814, [93782]); (93815, [93783]); (93816, [93784]);
  (93817, [93785]); (93818, [93786]); (93819, [93787]); (93820, [93788]);
  (93821, [93789]); (93822, [93790]); (93823, [93791]); (125218, [125184]);
  (125219, [125185]); (125220, [125186]); (125221, [125187]);
  (125222, [125188]); (125223, [125189]); (125224, [125190]);
  (125225, [125191]); (125226, [125192]); (125227, [125193]);
  (125228, [125194]); (125229, [125195]); (125230, [125196]);
  (125231, [125197]); (125232, [125198]); (125233, [125199]);
  (125234, [125200]); (125235, [125201]); (125236, [125202]);
  (125237, [125203]); (125238, [125204]); (125239, [125205]);
  (125240, [125206]); (125241, [125207]); (125242, [125208]);
  (125243, [125209]); (125244, [125210]); (125245, [125211]);
  (125246, [125212]); (125247, [125213]); (125248, [125214]);
  (125249, [125215]); (125250, [125216]); (125251, [125217])
]%N.

Definition upper_table : gmap N (list N) := list_to_map upper_entries.

(** [str.upper] on one code point. *)
Definition upper_cp (c : N) : pystr :=
  default [c] (upper_table !! c).

Fixpoint upper (s : pystr) : pystr :=
  match s with
  | [] => []
  | c :: s' => upper_cp c ++ upper s'
  end.




Fixpoint lstrip (s : pystr) : pystr :=
  match s with
  | [] => []
  | c :: s' => if isspace c then lstrip s' else s
  end.

Fixpoint rstrip (s : pystr) : pystr :=
  match s with
  | [] => []
  | c :: s' =>
      match rstrip s' with
      | [] => if isspace c then [] else [c]
      | t => c :: t
      end
  end.

Definition strip (s : pystr) : pystr := rstrip (lstrip s).

Fixpoint eqb (s t : pystr) : bool :=
  match s, t with
  | [], [] => true
  | a :: s', b :: t' => (a =? b)%N && eqb s' t'
  | _, _ => false
  end.

(** [s.startswith(p)] *)
Fixpoint startswith (p s : pystr) : bool :=
  match p, s with
  | [], _ => true
  | a :: p', b :: s' => (a =? b)%N && startswith p' s'
  | _ :: _, [] => false
  end.

(** [s[1:]] *)
Definition tail (s : pystr) : pystr :=
  match s with
  | [] => []
  | _ :: s' => s'
  end.

End PyStr.

(** ** The text that the decimal library parses *)

(** [Decimal] hands the C library a string of bytes in the ASCII range. *)
Module CStr.

Definition code (c : ascii) : N := N_of_ascii c.

Definition isspace (c : ascii) : bool :=
  ((9 <=? code c) && (code c <=? 13) || (28 <=? code c) && (code c <=? 32))%N.

Definition isdigit (c : ascii) : bool :=
  ((48 <=? code c) && (code c <=? 57))%N.

Definition isupper (c : ascii) : bool :=
  ((65 <=? code c) && (code c <=? 90))%N.

Definition lower_char (c : ascii) : ascii :=
  if isupper c then ascii_of_N (code c + 32) else c.

Fixpoint lower (s : string) : string :=
  match s with
  | EmptyString => EmptyString
  | String c s' => String (lower_char c) (lower s')
  end.

Fixpoint startswith (p s : string) : bool :=
  match p, s with
  | EmptyString, _ => true
  | String a p', String b s' => if Ascii.eqb a b then startswith p' s' else false
  | String _ _, EmptyString => false
  end.

Definition tail (s : string) : string :=
  match s with
  | EmptyString => EmptyString
  | String _ s' => s'
  end.

Fixpoint all_chars (p : ascii → bool) (s : string) : bool :=
  match s with
  | EmptyString => true
  | String c s' => p c && all_chars p s'
  end.

End CStr.

Module PyDecimal.

Import CStr.

(** A decimal is a signed coefficient with an exponent, or a special
    value; [sign = true] is the minus sign. *)
Inductive Decimal : Type :=
| Finite (sign : bool) (coeff : N) (exp : Z)
| Infinity (sign : bool)
| NaN (sign : bool) (payload : N)
| sNaN (sign : bool) (payload : N).

(** The default context, and the limits of the exact conversion. *)
Definition prec : Z := 28.
Definition MAX_EMAX : Z := 999999999999999999.
Definition MAX_ETINY : Z := -1999999999999999997.

Definition digit_val (c : ascii) : N := (code c - 48)%N.

(** Value of a run of decimal digits, most significant first. *)
Fixpoint digits_val_from (acc : N) (s : string) : N :=
  match s with
  | EmptyString => acc
  | String c s' => digits_val_from (10 * acc + digit_val c)%N s'
  end.

Definition digits_val (s : string) : N := digits_val_from 0 s.

(** Longest prefix of digits, and what follows it. *)
Fixpoint span_digits (s : string) : string * string :=
  match s with
  | EmptyString => (EmptyString, EmptyString)
  | String c s' =>
      if isdigit c
      then let '(d, r) := span_digits s' in (String c d, r)
      else (EmptyString, s)
  end.

(** An optional sign. *)
Definition scan_sign (s : string) : bool * string :=
  match s with
  | String "-" s' => (true, s')
  | String "+" s' => (false, s')
  | _ => (false, s)
  end.

(** The exponent part after the indicator: [[+-]? digit+] up to the end. *)
Definition scan_exponent (s : string) : option Z :=
  let '(neg, s1) := scan_sign s in
  match s1 with
  | EmptyString => None
  | String _ _ =>
      if all_chars isdigit s1
      then Some (if neg then - Z.of_N (digits_val s1) else Z.of_N (digits_val s1))
      else None
  end.

(** The numeric string: digits with at most one point and at least one
    digit, then an optional exponent part. The result is the coefficient and
    the exponent after the fraction digits are accounted for. *)
Definition scan_numeric (s : string) : option (N * Z) :=
  let '(ip, r1) := span_digits s in
  let '(fp, r2) :=
    match r1 with
    | String "." r => span_digits r
    | _ => (EmptyString, r1)
    end in
  match (String.length ip + String.length fp)%nat with
  | O => None
  | S _ =>
      let coeff := digits_val (String.append ip fp) in
      let fracdigits := Z.of_nat (String.length fp) in
      match r2 with
      | EmptyString => Some (coeff, - fracdigits)
      | String c r3 =>
          if Ascii.eqb c "e" || Ascii.eqb c "E"
          then match scan_exponent r3 with
               | Some e => Some (coeff, e - fracdigits)
               | None => None
               end
          else None
      end
  end.

(** The diagnostic digits after [NaN]. *)
Definition scan_payload (s : string) : option N :=
  if all_chars isdigit s then Some (digits_val s) else None.

(** The grammar of a decimal in text, letters in either case. *)
Definition parse (s : string) : option Decimal :=
  let '(sg, body) := scan_sign s in
  let l := lower body in
  if String.eqb l "inf" || String.eqb l "infinity" then Some (Infinity sg)
  else if startswith "nan" l then
    match scan_payload (String.substring 3 (String.length l - 3) l) with
    | Some p => Some (NaN sg p)
    | None => None
    end
  else if startswith "snan" l then
    match scan_payload (String.substring 4 (String.length l - 4) l) with
    | Some p => Some (sNaN sg p)
    | None => None
    end
  else
    match scan_numeric body with
    | Some (c, e) => Some (Finite sg c e)
    | None => None
    end.

(** Number of digits of a coefficient; zero has one digit. *)
Definition ndigits (n : N) : Z :=
  Z.of_nat (String.length (NilZero.string_of_uint (N.to_uint n))).

(** The constructor is exact: a value that the widest context would have
    to round or clamp is an [InvalidOperation]. *)
Definition representable (d : Decimal) : bool :=
  match d with
  | Finite _ 0%N e => (MAX_ETINY <=? e) && (e <=? MAX_EMAX)
  | Finite _ c e => (MAX_ETINY <=? e) && (e + ndigits c - 1 <=? MAX_EMAX)
  | _ => true
  end.

(** The code points of the digit zero of every script; the nine code
    points after each are its digits one to nine. *)
Definition decimal_zeros : list N := [
  48; 1632; 1776; 1984; 2406; 2534; 2662; 2790; 2918; 3046; 3174; 3302; 3430;
  3558; 3664; 3792; 3872; 4160; 4240; 6112; 6160; 6470; 6608; 6784; 6800;
  6992; 7088; 7232; 7248; 42528; 43216; 43264; 43472; 43504; 43600; 44016;
  65296; 66720; 68912; 69734; 69872; 69942; 70096; 70384; 70736; 70864;
  71248; 71360; 71472; 71904; 72016; 72784; 73040; 73120; 92768; 92864;
  93008; 120782; 120792; 120802; 120812; 120822; 123200; 123632; 125264;
  130032
]%N.

(** The value of a Unicode decimal digit. *)
Definition to_decimal (ch : N) : option N :=
  match List.find (λ z, (z <=? ch) && (ch <=? z + 9))%N decimal_zeros with
  | Some z => Some (ch - z)%N
  | None => None
  end.

(** The characters of a numeric text brought to ASCII, one by one: an
    underscore is skipped, a character of the ASCII range is kept,
    whitespace becomes a space, a decimal digit of any script becomes the
    ASCII digit; anything else ends the conversion. *)
Fixpoint translate (s : pystr) : option string :=
  match s with
  | [] => Some EmptyString
  | ch :: s' =>
      if (ch =? 95)%N then translate s'
      else if (0 <? ch)%N && (ch <=? 127)%N
      then String (ascii_of_N ch) <$> translate s'
      else if PyStr.isspace ch
      then String " " <$> translate s'
      else match to_decimal ch with
           | Some d => String (ascii_of_N (48 + d)) <$> translate s'
           | None => None
           end
  end.

(** Whitespace is dropped at both ends first; a character that cannot be
    converted gives the empty text, which is not a number. *)
Definition numeric_as_ascii (s : pystr) : string :=
  default EmptyString (translate (PyStr.strip s)).

(** [Decimal(s)] for a [str]. *)
Definition Decimal_of_str (s : pystr) : result Decimal :=
  match parse (numeric_as_ascii s) with
  | Some d => if representable d then Returns d else Raises InvalidOperation
  | None => Raises InvalidOperation
  end.

(** The coefficient of [c * 10^k] brought to exponent zero: zeros are
    appended for [k >= 0]; digits are dropped otherwise, rounding to the
    nearest integer with ties to the even neighbour. A value with no digit
    left of the tenths rounds to zero. *)
Definition rescale (c : N) (k : Z) : N :=
  if 0 <=? k then (c * Z.to_N (10 ^ k))%N
  else if ndigits c + k <? 0 then 0%N
  else
    let p := Z.to_N (10 ^ (- k)) in
    let q := (c / p)%N in
    let r := (c mod p)%N in
    match (2 * r ?= p)%N with
    | Lt => q
    | Gt => (q + 1)%N
    | Eq => if N.even q then q else (q + 1)%N
    end.

(** [d.quantize(Decimal('0.01'))] in the default context: a quiet NaN
    passes through (its payload cut to the precision), a signaling NaN or
    an infinity is an [InvalidOperation], and so is a result that needs
    more than [prec] digits, before or after rounding. *)
Definition quantize_cents (d : Decimal) : result Decimal :=
  match d with
  | NaN sg p => Returns (NaN sg (p mod Z.to_N (10 ^ prec))%N)
  | sNaN _ _ => Raises InvalidOperation
  | Infinity _ => Raises InvalidOperation
  | Finite sg 0%N _ => Returns (Finite sg 0 (-2))
  | Finite sg c e =>
      if prec <? ndigits c + (e + 2) then Raises InvalidOperation
      else
        let q := rescale c (e + 2) in
        if prec <? ndigits q then Raises InvalidOperation
        else Returns (Finite sg q (-2))
  end.

Definition str_of_N (n : N) : string := NilZero.string_of_uint (N.to_uint n).

Fixpoint zeros (n : nat) : string :=
  match n with
  | O => EmptyString
  | S n' => String "0" (zeros n')
  end.

(** [str(d)]: plain notation when the exponent is not positive and there
    are at most five zeros after the point, scientific otherwise. *)
Definition Decimal_str (d : Decimal) : string :=
  let sgn (b : bool) : string := if b then "-" else "" in
  match d with
  | Infinity sg => sgn sg +:+ "Infinity"
  | NaN sg p => sgn sg +:+ "NaN" +:+ (if (p =? 0)%N then "" else str_of_N p)
  | sNaN sg p => sgn sg +:+ "sNaN" +:+ (if (p =? 0)%N then "" else str_of_N p)
  | Finite sg c e =>
      let int := str_of_N c in
      let len := Z.of_nat (String.length int) in
      let leftdigits := e + len in
      let dotplace := if (e <=? 0) && (-6 <? leftdigits) then leftdigits else 1 in
      let '(intpart, fracpart) :=
        if dotplace <=? 0
        then ("0", "." +:+ zeros (Z.to_nat (- dotplace)) +:+ int)
        else if len <=? dotplace
        then (int +:+ zeros (Z.to_nat (dotplace - len)), "")
        else (String.substring 0 (Z.to_nat dotplace) int,
              "." +:+ String.substring (Z.to_nat dotplace) (Z.to_nat (len - dotplace)) int) in
      let x := leftdigits - dotplace in
      let exp :=
        if x =? 0 then ""
        else "E" +:+ (if x <? 0 then "-" else "+") +:+ str_of_N (Z.to_N (Z.abs x)) in
      sgn sg +:+ intpart +:+ fracpart +:+ exp
  end.

(** The sticky flags of the context that these operations can set; an
    operation adds to them and reads none. *)
Record Flags : Type := mkFlags {
  flag_InvalidOperation : bool;
  flag_Inexact : bool;
  flag_Rounded : bool
}.

Definition no_flags : Flags := mkFlags false false false.

Definition flags_or (f g : Flags) : Flags :=
  mkFlags (flag_InvalidOperation f || flag_InvalidOperation g)
          (flag_Inexact f || flag_Inexact g)
          (flag_Rounded f || flag_Rounded g).

(** What [Decimal(s)] signals: a text that is not a number, or a number
    that is not exactly representable, is an invalid operation. *)
Definition Decimal_signals (s : pystr) : Flags :=
  match Decimal_of_str s with
  | Returns _ => no_flags
  | Raises _ => mkFlags true false false
  end.

(** What [d.quantize(Decimal('0.01'))] signals: an invalid operation where
    it raises; [Rounded] where digits are dropped, with [Inexact] where one
    of them is not zero. *)
Definition quantize_cents_signals (d : Decimal) : Flags :=
  match d with
  | NaN _ _ => no_flags
  | sNaN _ _ => mkFlags true false false
  | Infinity _ => mkFlags true false false
  | Finite _ 0%N _ => no_flags
  | Finite _ c e =>
      if prec <? ndigits c + (e + 2) then mkFlags true false false
      else if 0 <=? e + 2 then no_flags
      else if prec <? ndigits (rescale c (e + 2)) then mkFlags true false false
      else if ndigits c + (e + 2) <? 0 then mkFlags false true true
      else mkFlags false (negb (c mod Z.to_N (10 ^ (- (e + 2))) =? 0)%N) true
  end.

End PyDecimal.
(** ** The converter's data *)

(** A row of [csv.DictReader]: the cells by column name, and the cells
    beyond the header (kept under the key [None]) when the line is longer. *)
Record InRow : Type := mkInRow {
  named : gmap pystr PyVal;
  surplus : option (list pystr)
}.

(** A row under construction: a [dict] in insertion order. *)
Definition OutRow : Type := list (pystr * PyVal).

(** [d.get(k, dflt)] on the named cells of an input row *)
Definition row_get (old_row : InRow) (k : pystr) (dflt : PyVal) : PyVal :=
  default dflt (named old_row !! k).

(** [v or ""], which is always a [str] here *)
Definition or_empty (v : PyVal) : pystr :=
  match v with
  | PNone => str ""
  | PStr s => s
  end.

(** [d[k]] for reading, [k in d] *)
Fixpoint dict_lookup (k : pystr) (d : OutRow) : option PyVal :=
  match d with
  | [] => None
  | (k', v) :: d' => if PyStr.eqb k' k then Some v else dict_lookup k d'
  end.

(** [d[k] = v]: an existing key keeps its place, a new key goes last. *)
Fixpoint dict_setitem (k : pystr) (v : PyVal) (d : OutRow) : OutRow :=
  match d with
  | [] => [(k, v)]
  | (k', v') :: d' =>
      if PyStr.eqb k' k then (k', v) :: d' else (k', v') :: dict_setitem k v d'
  end.

Definition dict_keys (d : OutRow) : list pystr := map fst d.

(** A [dict] display [{k1: v1, ...}]: a later entry replaces an earlier one. *)
Definition dict_literal {V : Type} (l : list (pystr * V)) : gmap pystr V :=
  foldl (λ m kv, <[kv.1 := kv.2]> m) ∅ l.

(** Moxfield edition code to Deckbox edition code *)
Definition edition_code_map : gmap pystr pystr :=
  dict_literal [
    (str "PLST", str "PLIST");
    (str "3ED", str "3E");
    (str "F11", str "FNMP");
    (str "MIR", str "MI");
    (str "ICE", str "IA");
    (str "ULG", str "GU")
  ].

(** Moxfield edition code to Deckbox Edition (set name) *)
Definition edition_map : gmap pystr pystr :=
  dict_literal [
    (str "ISD", str "Innistrad");
    (str "INR", str "Innistrad Remastered");
    (str "CMM", str "Commander Masters");
    (str "BLC", str "Bloomburrow Commander");
    (str "TDM", str "Tarkir: Dragonstorm");
    (str "OTC", str "Outlaws of Thunder Junction Commander");
    (str "MH3", str "Modern Horizons 3");
    (str "M13", str "Magic 2013");
    (str "DSK", str "Duskmourn: House of Horror");
    (str "EOE", str "Edge of Eternities");
    (str "M3C", str "Modern Horizons 3 Commander");
    (str "TDC", str "Tarkir: Dragonstorm Commander");
    (str "AVR", str "Avacyn Restored");
    (str "MRD", str "Mirrodin");
    (str "LTR", str "The Lord of the Rings: Tales of Middle-earth");
    (str "ONE", str "Phyrexia: All Will Be One");
    (str "MKC", str "Murders at Karlov Manor Commander");
    (str "BLB", str "Bloomburrow");
    (str "EOC", str "Edge of Eternities Commander");
    (str "LTC", str "The Lord of the Rings: Tales of Middle-earth Commander");
    (str "C20", str "Commander 2020");
    (str "SLD", str "Secret Lair Drop Series");
    (str "DKA", str "Dark Ascension");
    (str "LCC", str "The Lost Caverns of Ixalan Commander");
    (str "EOS", str "Edge of Eternities: Stellar Sights");
    (str "FDN", str "Foundations");
    (str "CLU", str "Ravnica: Clue Edition");
    (str "SCG", str "Scourge");
    (str "3ED", str "Revised Edition");
    (str "PLST", str "The List");
    (str "C21", str "Commander 2021");
    (str "M14", str "Magic 2014 Core Set");
    (str "M12", str "Magic 2012");
    (str "2X2", str "Double Masters 2022");
    (str "FNMP", str "Friday Night Magic");
    (str "DOM", str "Dominaria");
    (str "DSC", str "Duskmourn: House of Horror Commander");
    (str "AKH", str "Amonkhet");
    (str "SOM", str "Scars of Mirrodin");
    (str "SPG", str "Special Guests");
    (str "RVR", str "Ravnica Remastered");
    (str "C13", str "Commander 2013");
    (str "TOR", str "Torment");
    (str "DIS", str "Dissension");
    (str "OGW", str "Oath of the Gatewatch");
    (str "MBS", str "Mirrodin Besieged");
    (str "MH2", str "Modern Horizons 2");
    (str "HOU", str "Hour of Devastation");
    (str "BRR", str "The Brothers' War Retro Artifacts");
    (str "40K", str "Warhammer 40,000");
    (str "MH1", str "Modern Horizons");
    (str "SCD", str "Starter Commander Decks");
    (str "2XM", str "Double Masters");
    (str "F11", str "Friday Night Magic");
    (str "MIR", str "Mirage");
    (str "ICE", str "Ice Age");
    (str "ULG", str "Urza's Legacy")
  ].

(** Output columns, in the order of the output file *)
Definition output_columns : list pystr := [
  str "Count";
  str "Tradelist Count";
  str "Name";
  str "Edition";
  str "Edition Code";
  str "Card Number";
  str "Condition";
  str "Language";
  str "Foil";
  str "Signed";
  str "Artist Proof";
  str "Altered Art";
  str "Misprint";
  str "Promo";
  str "Textless";
  str "Printing Id";
  str "Printing Note";
  str "Tags";
  str "My Price"
].

(** ** The converter *)

(** Helper: format price as $X.YY. The [try] covers the construction of the
    decimal only; [quantize] runs after it. *)
Definition format_price (value : PyVal) : result pystr :=
  match value with
  | PNone => Returns (str "$0.00")
  | PStr [] => Returns (str "$0.00")
  | PStr v =>
      let s := PyStr.strip v in
      let s := if PyStr.startswith (str "$") s then PyStr.strip (PyStr.tail s) else s in
      match PyDecimal.Decimal_of_str s with
      | Raises e =>
          if caught_by [InvalidOperation; ValueError] e
          then Returns (str "$0.00")
          else Raises e
      | Returns d =>
          q ← PyDecimal.quantize_cents d;
          Returns (str "$" ++ str (PyDecimal.Decimal_str q))
      end
  end.

(** [{col: "" for col in output_columns}] *)
Definition empty_row (cols : list pystr) : OutRow :=
  foldl (λ d col, dict_setitem col (PStr (str "")) d) [] cols.

(** [edition_map.get(k)]: [None] when the key is absent *)
Definition get_or_None (m : gmap pystr pystr) (k : pystr) : PyVal :=
  match m !! k with
  | Some v => PStr v
  | None => PNone
  end.

(** [edition_code_map.get(k, dflt)] *)
Definition get_or (m : gmap pystr pystr) (k dflt : pystr) : PyVal :=
  match m !! k with
  | Some v => PStr v
  | None => PStr dflt
  end.

Definition convert_row (old_row : InRow) : result OutRow :=
  let new_row := empty_row output_columns in
  (* Source values *)
  let count := row_get old_row (str "Count") (PStr (str "")) in
  let name := row_get old_row (str "Name") (PStr (str "")) in
  let edition_code :=
    PyStr.upper
      (PyStr.strip (or_empty (row_get old_row (str "Edition") (PStr (str ""))))) in
  let collector_num := row_get old_row (str "Collector Number") (PStr (str "")) in
  let condition := row_get old_row (str "Condition") (PStr (str "")) in
  let language := row_get old_row (str "Language") (PStr (str "")) in
  let foil := row_get old_row (str "Foil") (PStr (str "")) in
  let tags := row_get old_row (str "Tags") (PStr (str "")) in
  let purchase_price := row_get old_row (str "Purchase Price") (PStr (str "")) in
  (* Fill fields *)
  let new_row := dict_setitem (str "Count") count new_row in
  let new_row := dict_setitem (str "Tradelist Count") (PStr (str "0")) new_row in
  let new_row := dict_setitem (str "Name") name new_row in
  let new_row :=
    dict_setitem (str "Edition")
      (get_or_None edition_map (PyStr.upper edition_code)) new_row in
  let new_row :=
    dict_setitem (str "Edition Code")
      (get_or edition_code_map edition_code edition_code) new_row in
  let new_row := dict_setitem (str "Card Number") collector_num new_row in
  let new_row := dict_setitem (str "Condition") condition new_row in
  let new_row := dict_setitem (str "Language") language new_row in
  let new_row := dict_setitem (str "Foil") foil new_row in
  let new_row := dict_setitem (str "Signed") (PStr (str "")) new_row in
  let new_row := dict_setitem (str "Artist Proof") (PStr (str "")) new_row in
  let new_row := dict_setitem (str "Altered Art") (PStr (str "")) new_row in
  let new_row := dict_setitem (str "Misprint") (PStr (str "")) new_row in
  let new_row := dict_setitem (str "Promo") (PStr (str "")) new_row in
  let new_row := dict_setitem (str "Textless") (PStr (str "")) new_row in
  let new_row := dict_setitem (str "Printing Id") (PStr (str "")) new_row in
  let new_row := dict_setitem (str "Printing Note") (PStr (str "")) new_row in
  let new_row := dict_setitem (str "Tags") tags new_row in
  price ← format_price purchase_price;
  let new_row := dict_setitem (str "My Price") (PStr price) new_row in
  Returns new_row.

(** ** Reading, converting, writing *)

(** A cell as [csv.writer] emits it: [None] is written as the empty field. *)
Definition csv_cell (v : PyVal) : pystr :=
  match v with
  | PNone => str ""
  | PStr s => s
  end.

(** [csv.DictWriter] with the default [restval=""] and
    [extrasaction="raise"]: a key outside [fieldnames] is a [ValueError]. *)
Definition dict_to_list (fieldnames : list pystr) (rowdict : OutRow)
  : result (list PyVal) :=
  if forallb (λ kv, bool_decide (kv.1 ∈ fieldnames)) rowdict
  then Returns (map (λ k, default (PStr (str "")) (dict_lookup k rowdict)) fieldnames)
  else Raises ValueError.

Definition writerow (rowdict : OutRow) (out : list (list pystr))
  : result (list (list pystr)) :=
  cells ← dict_to_list output_columns rowdict;
  Returns (out ++ [map csv_cell cells]).

(** The loop over the rows that the reader yields. The reader ends
    normally, or with an exception of its own ([reader_end]) after the rows
    it could read. The records written so far stay in the file when a row,
    or the reader, raises. *)
Fixpoint process_rows (rows : list InRow) (reader_end : option exn)
  (out : list (list pystr)) : list (list pystr) * option exn :=
  match rows with
  | [] => (out, reader_end)
  | in_row :: rest =>
      match (out_row ← convert_row in_row; writerow out_row out) with
      | Returns out' => process_rows rest reader_end out'
      | Raises e => (out, Some e)
      end
  end.

(** One run of the script on the rows of the input file, from the previous
    content of the output file: mode ["w"] truncates, the header goes first.
    The result is the new content and the exception that ended the run, if
    any. *)
Definition run (rows : list InRow) (reader_end : option exn)
  (outfile : list (list pystr)) : list (list pystr) * option exn :=
  let outfile := [] in
  let outfile := outfile ++ [output_columns] in
  process_rows rows reader_end outfile.

(** ** Reading the input file *)

(** One row of [csv.DictReader] with the default [restkey=None] and
    [restval=None]: the cells are paired with the field names (a later
    duplicate name wins), a short line is padded with [None], the cells of a
    long line beyond the field names are kept apart. *)
Definition DictReader_row (fieldnames : list pystr) (row : list pystr) : InRow :=
  let d := dict_literal (zip fieldnames (map PStr row)) in
  let lf := length fieldnames in
  let lr := length row in
  if (lf <? lr)%nat then mkInRow d (Some (drop lf row))
  else mkInRow (foldl (λ m key, <[key := PNone]> m) d (drop lr fieldnames)) None.



(** ** What the converter could read or change besides its arguments *)

(** The objects that outlive a call: the three module-level objects (two
    [dict]s and a [list], which any code could change in place), the sticky
    flags of the decimal context of the thread, and the content of the
    output file. *)
Record World : Type := mkWorld {
  g_edition_code_map : gmap pystr pystr;
  g_edition_map : gmap pystr pystr;
  g_output_columns : list pystr;
  decimal_flags : PyDecimal.Flags;
  output_file : list (list pystr)
}.


Definition signal (f : PyDecimal.Flags) (w : World) : World :=
  mkWorld (g_edition_code_map w) (g_edition_map w) (g_output_columns w)
          (PyDecimal.flags_or (decimal_flags w) f) (output_file w).


(** A call in a world returns or raises, and leaves a world. *)
Definition St (A : Type) : Type := World → result A * World.

Definition st_return {A : Type} (a : A) : St A := λ w, (Returns a, w).

Definition st_raise {A : Type} (e : exn) : St A := λ w, (Raises e, w).

Global Instance St_ret : MRet St := @st_return.

Global Instance St_bind : MBind St := λ A B k m w,
  match m w with
  | (Returns a, w') => k a w'
  | (Raises e, w') => (Raises e, w')
  end.

(** The body of a [try]: how it ended is handed to the [except] clauses. *)
Definition st_try {A : Type} (body : St A) : St (result A) := λ w,
  (Returns (body w).1, (body w).2).



(** The two operations of the decimal library, with their signals. *)
Definition Decimal_in (s : pystr) : St PyDecimal.Decimal := λ w,
  (PyDecimal.Decimal_of_str s, signal (PyDecimal.Decimal_signals s) w).

Definition quantize_cents_in (d : PyDecimal.Decimal) : St PyDecimal.Decimal := λ w,
  (PyDecimal.quantize_cents d, signal (PyDecimal.quantize_cents_signals d) w).

(** [format_price], statement by statement. *)
Definition format_price_in (value : PyVal) : St pystr :=
  match value with
  | PNone => st_return (str "$0.00")
  | PStr [] => st_return (str "$0.00")
  | PStr v =>
      let s := PyStr.strip v in
      let s := if PyStr.startswith (str "$") s then PyStr.strip (PyStr.tail s) else s in
      r ← st_try (Decimal_in s);
      match r with
      | Raises e =>
          if caught_by [InvalidOperation; ValueError] e
          then st_return (str "$0.00")
          else st_raise e
      | Returns d =>
          _ ← Decimal_in (str "0.01");
          q ← quantize_cents_in d;
          st_return (str "$" ++ str (PyDecimal.Decimal_str q))
      end
  end.





(** * Vocabulary of the properties *)

(** ** Input rows, converted rows *)

(** The input Edition cell as text: empty when the column is missing or the
    cell is [None]. *)
Definition edition_text (old_row : InRow) : pystr :=
  match named old_row !! str "Edition" with
  | Some (PStr s) => s
  | _ => str ""
  end.

(** The normalized code: stripped, uppercased. *)
Definition normalized_code (old_row : InRow) : pystr :=
  PyStr.upper (PyStr.strip (edition_text old_row)).

Definition purchase_price (old_row : InRow) : PyVal :=
  row_get old_row (str "Purchase Price") (PStr (str "")).

(** The nine input columns the converter reads. *)
Definition recognized_keys : list pystr := [
  str "Count"; str "Name"; str "Edition"; str "Collector Number";
  str "Condition"; str "Language"; str "Foil"; str "Tags"; str "Purchase Price"
].

(** The row after all nineteen assignments, given the formatted price. *)
Definition filled_row (old_row : InRow) (price : pystr) : OutRow :=
  let edition_code :=
    PyStr.upper
      (PyStr.strip (or_empty (row_get old_row (str "Edition") (PStr (str ""))))) in
  [ (str "Count", row_get old_row (str "Count") (PStr (str "")));
    (str "Tradelist Count", PStr (str "0"));
    (str "Name", row_get old_row (str "Name") (PStr (str "")));
    (str "Edition", get_or_None edition_map (PyStr.upper edition_code));
    (str "Edition Code", get_or edition_code_map edition_code edition_code);
    (str "Card Number", row_get old_row (str "Collector Number") (PStr (str "")));
    (str "Condition", row_get old_row (str "Condition") (PStr (str "")));
    (str "Language", row_get old_row (str "Language") (PStr (str "")));
    (str "Foil", row_get old_row (str "Foil") (PStr (str "")));
    (str "Signed", PStr (str ""));
    (str "Artist Proof", PStr (str ""));
    (str "Altered Art", PStr (str ""));
    (str "Misprint", PStr (str ""));
    (str "Promo", PStr (str ""));
    (str "Textless", PStr (str ""));
    (str "Printing Id", PStr (str ""));
    (str "Printing Note", PStr (str ""));
    (str "Tags", row_get old_row (str "Tags") (PStr (str "")));
    (str "My Price", PStr price) ].

(** A parsed input line with the given named cells and no surplus cells. *)
Definition reader_row (cells : list (pystr * PyVal)) : InRow :=
  mkInRow (dict_literal cells) None.

(** The record written for one input row. *)
Definition written_record (in_row : InRow) : result (list pystr) :=
  out_row ← convert_row in_row;
  cells ← dict_to_list output_columns out_row;
  Returns (map csv_cell cells).

(** The records of the input rows, one by one, up to the first row that
    raises, or up to the end of the reading. *)
Fixpoint records_until_raise (rows : list InRow) (reader_end : option exn)
  : list (list pystr) * option exn :=
  match rows with
  | [] => ([], reader_end)
  | in_row :: rest =>
      match written_record in_row with
      | Returns record =>
          let '(records, outcome) := records_until_raise rest reader_end in
          (record :: records, outcome)
      | Raises e => ([], Some e)
      end
  end.

(** ** Prices *)

(** The text that [format_price] hands to [Decimal]: stripped, one leading
    dollar sign removed, stripped again. *)
Definition price_text (v : pystr) : pystr :=
  let s := PyStr.strip v in
  if PyStr.startswith (str "$") s then PyStr.strip (PyStr.tail s) else s.

(** One digit or more, a point, two digits. *)
Definition is_amount (r : string) : bool :=
  let '(int, rest) := PyDecimal.span_digits r in
  match int, rest with
  | String _ _, String "." frac =>
      (String.length frac =? 2)%nat && CStr.all_chars CStr.isdigit frac
  | _, _ => false
  end.

(** A dollar sign, an optional minus sign, then an amount with two
    fractional digits, all in ASCII. *)
Definition is_dollar_text (s : string) : bool :=
  match s with
  | String c r =>
      Ascii.eqb c "$"
      && is_amount (if CStr.startswith "-" r then CStr.tail r else r)
  | EmptyString => false
  end.

(** The text of ASCII characters with the given code points, if they all
    are in the ASCII range. *)
Fixpoint ascii_text (s : pystr) : option string :=
  match s with
  | [] => Some EmptyString
  | c :: s' =>
      if (c <? 128)%N then String (ascii_of_N c) <$> ascii_text s' else None
  end.

Definition is_dollar_amount (s : pystr) : bool :=
  match ascii_text s with
  | Some a => is_dollar_text a
  | None => false
  end.

(** ** Edition cells that differ by surrounding whitespace or letter case *)









(** ** The written file *)

(** The record that the writer emits for a converted row. *)
Definition row_record (old_row : InRow) (price : pystr) : list pystr :=
  [ csv_cell (row_get old_row (str "Count") (PStr (str "")));
    str "0";
    csv_cell (row_get old_row (str "Name") (PStr (str "")));
    default (str "") (edition_map !! normalized_code old_row);
    default (normalized_code old_row) (edition_code_map !! normalized_code old_row);
    csv_cell (row_get old_row (str "Collector Number") (PStr (str "")));
    csv_cell (row_get old_row (str "Condition") (PStr (str "")));
    csv_cell (row_get old_row (str "Language") (PStr (str "")));
    csv_cell (row_get old_row (str "Foil") (PStr (str "")));
    str ""; str ""; str ""; str ""; str ""; str ""; str ""; str "";
    csv_cell (row_get old_row (str "Tags") (PStr (str "")));
    price ].

(** The price of the row formats. *)
Definition priced (old_row : InRow) : Prop :=
  ∃ price, format_price (purchase_price old_row) = Returns price.

(** ** Text and value of a decimal *)

(** An ASCII character that is neither whitespace nor an underscore. *)
Definition plain (c : ascii) : bool :=
  (0 <? CStr.code c)%N && (CStr.code c <? 128)%N
  && negb (CStr.isspace c) && negb (Ascii.eqb c "_").

(** [q] is [c * 10^k] rounded to an integer, ties to the even neighbour. *)
Definition rounds_half_even (c : N) (k : Z) (q : N) : Prop :=
  if 0 <=? k then Z.of_N q = Z.of_N c * 10 ^ k
  else
    2 * Z.abs (Z.of_N c - Z.of_N q * 10 ^ (- k)) ≤ 10 ^ (- k)
    ∧ (2 * Z.abs (Z.of_N c - Z.of_N q * 10 ^ (- k)) = 10 ^ (- k) → N.even q = true).

(** ** Sample rows *)

(** The row of the end-to-end example. *)
Definition bolt_row : InRow :=
  reader_row [
    (str "Count", PStr (str "2"));
    (str "Name", PStr (str "Lightning Bolt"));
    (str "Edition", PStr (str "mir"));
    (str "Collector Number", PStr (str "150"));
    (str "Condition", PStr (str "NM"));
    (str "Language", PStr (str "English"));
    (str "Foil", PStr (str "Foil"));
    (str "Tags", PStr (str ""));
    (str "Purchase Price", PStr (str "$1.25"))
  ].

(** The same card exported with two more columns and a surplus cell. *)
Definition bolt_row_extra : InRow :=
  mkInRow
    (<[str "Rarity" := PStr (str "common")]>
       (<[str "Last Modified" := PNone]> (named bolt_row)))
    (Some [str "stray"]).

(** A short line: most recognized columns are missing, one column is not
    recognized. *)
Definition sparse_row : InRow :=
  mkInRow
    (dict_literal [
       (str "Name", PStr (str "Island"));
       (str "Rarity", PStr (str "common"))
     ])
    (Some [str "stray"; str "cells"]).

(** A row with the given Edition cell and nothing else. *)
Definition edition_row (edition : pystr) : InRow :=
  reader_row [(str "Edition", PStr edition)].

(** A row whose price cell reads [Infinity]. *)
Definition infinity_row : InRow :=
  reader_row [
    (str "Name", PStr (str "Black Lotus"));
    (str "Purchase Price", PStr (str "Infinity"))
  ].

(** A name with whitespace around it and a short line padded with [None]. *)
Definition padded_row : InRow :=
  reader_row [
    (str "Count", PStr (str " 4 "));
    (str "Name", PStr (str "  island "));
    (str "Foil", PNone)
  ].


(** The lines of a small input file. *)
Definition name_edition : list pystr := [str "Name"; str "Edition"].

Definition edition_name : list pystr := [str "Edition"; str "Name"].

Definition name_edition_price : list pystr :=
  [str "Name"; str "Edition"; str "Purchase Price"].

Definition island_line : list pystr := [str "Island"; str "dom"].

Definition dom_line : list pystr := [str "dom"; str "Island"].


(** ** The table of [str.upper] *)

(** An entry of the table: the code point is not whitespace, its uppercase
    form is not empty, holds no whitespace, and is its own uppercase
    form. *)
Definition upper_entry_ok (e : N * list N) : bool :=
  negb (PyStr.isspace e.1)
  && negb (PyStr.eqb e.2 [])
  && forallb (λ c, negb (PyStr.isspace c)) e.2
  && PyStr.eqb (PyStr.upper e.2) e.2.

(** ** Text without whitespace at its ends *)

Definition no_space_at (c : option N) : bool :=
  match c with
  | Some c => negb (PyStr.isspace c)
  | None => true
  end.

(** Neither the first nor the last code point is whitespace. *)
Definition ends_without_space (s : pystr) : bool :=
  no_space_at (head s) && no_space_at (last s).

(** ** The converter in its world *)

(** The flags that formatting a price adds to the decimal context. *)
Definition format_price_signals (value : PyVal) : PyDecimal.Flags :=
  match value with
  | PNone => PyDecimal.no_flags
  | PStr [] => PyDecimal.no_flags
  | PStr v =>
      match PyDecimal.Decimal_of_str (price_text v) with
      | Raises _ => PyDecimal.Decimal_signals (price_text v)
      | Returns d =>
          PyDecimal.flags_or
            (PyDecimal.flags_or (PyDecimal.Decimal_signals (price_text v))
                                (PyDecimal.Decimal_signals (str "0.01")))
            (PyDecimal.quantize_cents_signals d)
      end
  end.

(** How a statement ended: with no exception, or with one. *)
Definition outcome {A : Type} (r : result A) : option exn :=
  match r with
  | Returns _ => None
  | Raises e => Some e
  end.


(** * Properties *)

(** ** What [convert_row] builds *)

Lemma convert_row_unfold (old_row : InRow) :
  convert_row old_row =
  (price ← format_price (purchase_price old_row); Returns (filled_row old_row price)).
Proof. reflexivity. Qed.

(** A row is produced exactly when the price formatting returns. *)
Lemma convert_row_returns (old_row : InRow) (price : pystr) :
  format_price (purchase_price old_row) = Returns price →
  convert_row old_row = Returns (filled_row old_row price).
Proof. intros Hp. rewrite convert_row_unfold, Hp. reflexivity. Qed.

Lemma convert_row_raises (old_row : InRow) (e : exn) :
  format_price (purchase_price old_row) = Raises e →
  convert_row old_row = Raises e.
Proof. intros Hp. rewrite convert_row_unfold, Hp. reflexivity. Qed.

Lemma convert_row_inv (old_row : InRow) (out : OutRow) :
  convert_row old_row = Returns out →
  ∃ price, format_price (purchase_price old_row) = Returns price
           ∧ out = filled_row old_row price.
Proof.
  rewrite convert_row_unfold.
  destruct (format_price (purchase_price old_row)) as [price|e]; cbn.
  - intros [= <-]. by exists price.
  - discriminate.
Qed.

Lemma or_empty_edition (old_row : InRow) :
  or_empty (row_get old_row (str "Edition") (PStr (str ""))) = edition_text old_row.
Proof.
  unfold row_get, edition_text.
  destruct (named old_row !! str "Edition") as [[|s]|]; reflexivity.
Qed.

(** The writer finds exactly its field names in a converted row. *)
Lemma dict_to_list_filled (old_row : InRow) (price : pystr) :
  dict_to_list output_columns (filled_row old_row price)
  = Returns (map snd (filled_row old_row price)).
Proof. reflexivity. Qed.


(** ** Code points and text *)

Section str_facts.
Import PyStr.

Lemma str_app (a b : string) : str (a +:+ b) = str a ++ str b.
Proof.
  induction a as [|c a IH]; [reflexivity|].
  change (String c a +:+ b) with (String c (a +:+ b)).
  cbn [str app]. by rewrite IH.
Qed.

Lemma eqb_eq (s t : pystr) : eqb s t = true ↔ s = t.
Proof.
  revert t. induction s as [|a s IH]; intros [|b t]; cbn [eqb]; try done.
  rewrite andb_true_iff, N.eqb_eq, IH. split.
  - by intros [-> ->].
  - by intros [= -> ->].
Qed.

Lemma upper_app (s t : pystr) : upper (s ++ t) = upper s ++ upper t.
Proof.
  induction s as [|c s IH]; [reflexivity|].
  cbn [app upper]. by rewrite IH, app_assoc.
Qed.

Lemma upper_entries_ok : forallb upper_entry_ok upper_entries = true.
Proof. vm_compute. reflexivity. Qed.

Lemma upper_table_entry (c : N) (l : pystr) :
  upper_table !! c = Some l → upper_entry_ok (c, l) = true.
Proof.
  intros H. apply elem_of_list_to_map_2, list_elem_of_In in H.
  exact (proj1 (forallb_forall _ _) upper_entries_ok _ H).
Qed.

(** A code point is left alone, or has an entry in the table. *)
Lemma upper_cp_cases (c : N) :
  upper_cp c = [c] ∧ upper (upper_cp c) = upper_cp c
  ∨ isspace c = false
    ∧ upper_cp c ≠ []
    ∧ forallb (λ c, negb (isspace c)) (upper_cp c) = true
    ∧ upper (upper_cp c) = upper_cp c.
Proof.
  destruct (upper_table !! c) as [l|] eqn:Hl.
  - assert (Hu : upper_cp c = l) by (unfold upper_cp; by rewrite Hl).
    rewrite Hu. right.
    apply upper_table_entry in Hl. unfold upper_entry_ok in Hl.
    cbn [fst snd] in Hl.
    apply andb_prop in Hl as [Hl H4]. apply andb_prop in Hl as [Hl H3].
    apply andb_prop in Hl as [H1 H2].
    apply negb_true_iff in H1, H2. apply eqb_eq in H4.
    split; [exact H1|]. split; [|by split].
    intros Hnil. rewrite Hnil in H2. discriminate H2.
  - assert (Hu : upper_cp c = [c]) by (unfold upper_cp; by rewrite Hl).
    rewrite Hu. left. split; [reflexivity|].
    cbn [upper]. by rewrite Hu.
Qed.

Lemma upper_cp_idem (c : N) : upper (upper_cp c) = upper_cp c.
Proof. by destruct (upper_cp_cases c) as [[_ H]|(_ & _ & _ & H)]. Qed.

Lemma upper_idem (s : pystr) : upper (upper s) = upper s.
Proof.
  induction s as [|c s IH]; [reflexivity|].
  cbn [upper]. by rewrite upper_app, upper_cp_idem, IH.
Qed.

Lemma upper_cp_nonempty (c : N) : upper_cp c ≠ [].
Proof.
  destruct (upper_cp_cases c) as [[H _]|(_ & H & _)]; [by rewrite H | exact H].
Qed.

(** Whitespace is left alone. *)
Lemma upper_cp_space (c : N) : isspace c = true → upper_cp c = [c].
Proof.
  intros Hc. destruct (upper_cp_cases c) as [[H _]|(H & _)]; [exact H|].
  by rewrite Hc in H.
Qed.

(** The uppercase form of a code point that is not whitespace holds no
    whitespace. *)
Lemma upper_cp_no_space (c : N) :
  isspace c = false → forallb (λ c, negb (isspace c)) (upper_cp c) = true.
Proof.
  intros Hc. destruct (upper_cp_cases c) as [[H _]|(_ & _ & H & _)]; [|exact H].
  rewrite H. cbn [forallb]. by rewrite Hc.
Qed.

End str_facts.

(** ** Surrounding whitespace and letter case *)

Section strip_facts.
Import PyStr.

Lemma lstrip_all_space (l : pystr) :
  forallb isspace l = true → lstrip l = [].
Proof.
  induction l as [|c l IH]; cbn [forallb lstrip]; [done|].
  intros [Hc Hl]%andb_prop. rewrite Hc. by apply IH.
Qed.

Lemma lstrip_app_space (l s : pystr) :
  forallb isspace l = true → lstrip (l ++ s) = lstrip s.
Proof.
  induction l as [|c l IH]; [done|].
  cbn [forallb lstrip app].
  intros [Hc Hl]%andb_prop. rewrite Hc. by apply IH.
Qed.

Lemma lstrip_app (m r : pystr) :
  lstrip (m ++ r) = match lstrip m with
                    | [] => lstrip r
                    | (_ :: _) as t => t ++ r
                    end.
Proof.
  induction m as [|c m IH]; [done|].
  cbn [lstrip app].
  destruct (isspace c); [exact IH | reflexivity].
Qed.

Lemma rstrip_all_space (r : pystr) :
  forallb isspace r = true → rstrip r = [].
Proof.
  induction r as [|c r IH]; cbn [forallb rstrip]; [done|].
  intros [Hc Hr]%andb_prop. by rewrite (IH Hr), Hc.
Qed.

Lemma rstrip_app_space (s r : pystr) :
  forallb isspace r = true → rstrip (s ++ r) = rstrip s.
Proof.
  intros Hr. induction s as [|c s IH].
  - by apply rstrip_all_space.
  - cbn [rstrip app]. by rewrite IH.
Qed.

(** Whitespace around a text does not survive [strip]. *)
Lemma strip_surrounding_space (l m r : pystr) :
  forallb isspace l = true → forallb isspace r = true →
  strip (l ++ m ++ r) = strip m.
Proof.
  intros Hl Hr. unfold strip.
  rewrite (lstrip_app_space _ _ Hl), lstrip_app.
  destruct (lstrip m) as [|c t] eqn:Hm.
  - by rewrite (lstrip_all_space _ Hr).
  - by rewrite (rstrip_app_space _ _ Hr).
Qed.

Lemma lstrip_head (s : pystr) : no_space_at (head s) = true → lstrip s = s.
Proof.
  destruct s as [|c s]; [done|]. cbn [head no_space_at lstrip].
  intros Hc%negb_true_iff. by rewrite Hc.
Qed.

Lemma rstrip_last (s : pystr) : no_space_at (last s) = true → rstrip s = s.
Proof.
  induction s as [|c s IH]; [done|].
  destruct s as [|d s].
  - cbn [last no_space_at rstrip]. intros Hc%negb_true_iff. by rewrite Hc.
  - intros Hl. cbn [rstrip]. cbn [rstrip] in IH. rewrite IH; [reflexivity|].
    exact Hl.
Qed.

(** A text without whitespace at its ends is left alone. *)
Lemma strip_ends_without_space (s : pystr) :
  ends_without_space s = true → strip s = s.
Proof.
  intros [Hh Hl]%andb_prop. unfold strip.
  by rewrite (lstrip_head s Hh), (rstrip_last s Hl).
Qed.

Lemma rstrip_idem (s : pystr) : rstrip (rstrip s) = rstrip s.
Proof.
  induction s as [|c s IH]; [done|]. cbn [rstrip].
  destruct (rstrip s) as [|a t] eqn:Hr.
  - destruct (isspace c) eqn:Hc; [reflexivity|]. cbn [rstrip]. by rewrite Hc.
  - cbn [rstrip] in *. by rewrite IH.
Qed.

Lemma lstrip_idem (s : pystr) : lstrip (lstrip s) = lstrip s.
Proof.
  induction s as [|c s IH]; [done|]. cbn [lstrip].
  destruct (isspace c) eqn:Hc; [exact IH|]. cbn [lstrip]. by rewrite Hc.
Qed.

Lemma lstrip_rstrip (s : pystr) : lstrip (rstrip s) = rstrip (lstrip s).
Proof.
  induction s as [|c s IH]; [done|]. cbn [rstrip lstrip].
  destruct (isspace c) eqn:Hc.
  - destruct (rstrip s) as [|a t] eqn:Hr.
    + by rewrite <- IH.
    + cbn [lstrip]. by rewrite Hc.
  - cbn [rstrip].
    destruct (rstrip s) as [|a t]; cbn [lstrip]; by rewrite Hc.
Qed.

Lemma strip_idem (s : pystr) : strip (strip s) = strip s.
Proof.
  unfold strip. by rewrite lstrip_rstrip, lstrip_idem, rstrip_idem.
Qed.

Lemma strip_rstrip (s : pystr) : strip (rstrip s) = strip s.
Proof. unfold strip. by rewrite lstrip_rstrip, rstrip_idem. Qed.

Lemma lstrip_no_space (l t : pystr) :
  l ≠ [] → forallb (λ c, negb (isspace c)) l = true → lstrip (l ++ t) = l ++ t.
Proof.
  destruct l as [|c l]; [done|]. intros _. cbn [forallb lstrip app].
  intros [Hc%negb_true_iff _]%andb_prop. by rewrite Hc.
Qed.

Lemma rstrip_no_space (l t : pystr) :
  forallb (λ c, negb (isspace c)) l = true → rstrip (l ++ t) = l ++ rstrip t.
Proof.
  induction l as [|c l IH]; [done|]. cbn [forallb rstrip app].
  intros [Hc%negb_true_iff Hl]%andb_prop. rewrite (IH Hl).
  destruct (l ++ rstrip t) eqn:Heq; [|reflexivity]. by rewrite Hc.
Qed.

Lemma upper_nil (s : pystr) : upper s = [] → s = [].
Proof.
  destruct s as [|c s]; [done|]. cbn [upper].
  intros [H _]%app_eq_nil. by destruct (upper_cp_nonempty c).
Qed.

Lemma lstrip_upper (s : pystr) : lstrip (upper s) = upper (lstrip s).
Proof.
  induction s as [|c s IH]; [done|]. cbn [upper lstrip].
  destruct (isspace c) eqn:Hc.
  - rewrite (upper_cp_space c Hc). cbn [app lstrip]. by rewrite Hc.
  - apply lstrip_no_space; [apply upper_cp_nonempty | by apply upper_cp_no_space].
Qed.

Lemma rstrip_upper (s : pystr) : rstrip (upper s) = upper (rstrip s).
Proof.
  induction s as [|c s IH]; [done|]. cbn [upper rstrip].
  destruct (isspace c) eqn:Hc.
  - rewrite (upper_cp_space c Hc). cbn [app rstrip]. rewrite IH, Hc.
    destruct (rstrip s) as [|a t] eqn:Hr; [reflexivity|].
    destruct (upper (a :: t)) eqn:Hu; [by apply upper_nil in Hu|].
    cbn [upper]. by rewrite (upper_cp_space c Hc), <- Hu.
  - rewrite rstrip_no_space by (by apply upper_cp_no_space). rewrite IH.
    by destruct (rstrip s).
Qed.

Lemma strip_upper (s : pystr) : strip (upper s) = upper (strip s).
Proof. unfold strip. by rewrite lstrip_upper, rstrip_upper. Qed.

(** A normalized code is a fixed point of both [upper] and [strip]. *)
Lemma normalized_fixed (s : pystr) :
  upper (upper (strip s)) = upper (strip s)
  ∧ strip (upper (strip s)) = upper (strip s).
Proof. split; [apply upper_idem | by rewrite strip_upper, strip_idem]. Qed.








Lemma strip_dollar (s : pystr) : strip (str "$" ++ s) = 36%N :: rstrip s.
Proof.
  unfold strip. change (lstrip (str "$" ++ s)) with (36%N :: s).
  cbn [rstrip]. by destruct (rstrip s).
Qed.

Lemma price_text_space (l s r : pystr) :
  forallb isspace l = true → forallb isspace r = true →
  price_text (l ++ s ++ r) = price_text s.
Proof. intros Hl Hr. unfold price_text. by rewrite strip_surrounding_space. Qed.

Lemma price_text_dollar (s : pystr) :
  startswith (str "$") (strip s) = false → price_text (str "$" ++ s) = price_text s.
Proof.
  intros Hs. unfold price_text. rewrite strip_dollar, Hs.
  change (startswith (str "$") (36%N :: rstrip s)) with true. cbv iota.
  change (tail (36%N :: rstrip s)) with (rstrip s).
  apply strip_rstrip.
Qed.

End strip_facts.

(** ** Lookups in a converted row *)

Lemma filled_row_edition (old_row : InRow) (price : pystr) :
  dict_lookup (str "Edition") (filled_row old_row price)
  = Some (get_or_None edition_map (normalized_code old_row)).
Proof.
  change (dict_lookup (str "Edition") (filled_row old_row price))
    with (Some (get_or_None edition_map
            (PyStr.upper (PyStr.upper (PyStr.strip
               (or_empty (row_get old_row (str "Edition") (PStr (str ""))))))))).
  by rewrite upper_idem, or_empty_edition.
Qed.

Lemma filled_row_edition_code (old_row : InRow) (price : pystr) :
  dict_lookup (str "Edition Code") (filled_row old_row price)
  = Some (get_or edition_code_map (normalized_code old_row) (normalized_code old_row)).
Proof.
  change (dict_lookup (str "Edition Code") (filled_row old_row price))
    with (Some (let c := PyStr.upper (PyStr.strip
                           (or_empty (row_get old_row (str "Edition") (PStr (str ""))))) in
                get_or edition_code_map c c)).
  by rewrite or_empty_edition.
Qed.

(** ** Edition name *)

(** C1, as stated, fails: for an Edition code that the name table does not
    have, the value stored under ['Edition'] is [None], not the empty
    pystr. The row with Edition [XYZ] shows it. *)
Lemma absent_edition_is_not_empty_str :
  ¬ (∀ (old_row : InRow) (out : OutRow),
       edition_map !! normalized_code old_row = None →
       convert_row old_row = Returns out →
       dict_lookup (str "Edition") out = Some (PStr (str ""))).
Proof.
  intros H.
  set (row := edition_row (str "XYZ")).
  specialize (H row (filled_row row (str "$0.00"))).
  assert (Hl : dict_lookup (str "Edition") (filled_row row (str "$0.00"))
               = Some PNone) by (vm_compute; reflexivity).
  rewrite Hl in H.
  assert (Some PNone = Some (PStr (str ""))) as [=].
  apply H; vm_compute; reflexivity.
Qed.

(** C1, amended. For every input row whose normalized Edition code is absent
    from the Edition Name Table, [convert_row] still produces the row (given
    that the price formatting returns), the value under ['Edition'] is
    [None], and the writer emits it as the empty field. *)
Theorem absent_edition_is_None (old_row : InRow) (price : pystr) :
  edition_map !! normalized_code old_row = None →
  format_price (purchase_price old_row) = Returns price →
  ∃ out cells,
    convert_row old_row = Returns out
    ∧ dict_lookup (str "Edition") out = Some PNone
    ∧ dict_to_list output_columns out = Returns cells
    ∧ map csv_cell cells !! 3%nat = Some (str "").
Proof.
  intros Habs Hp.
  exists (filled_row old_row price), (map snd (filled_row old_row price)).
  assert (He : dict_lookup (str "Edition") (filled_row old_row price) = Some PNone).
  { rewrite filled_row_edition. unfold get_or_None. by rewrite Habs. }
  split; [by apply convert_row_returns|].
  split; [exact He|].
  split; [apply dict_to_list_filled|].
  change (map csv_cell (map snd (filled_row old_row price)) !! 3%nat)
    with (csv_cell <$> dict_lookup (str "Edition") (filled_row old_row price)).
  by rewrite He.
Qed.

Lemma absent_edition_is_None_witness :
  edition_map !! normalized_code (edition_row (str "XYZ")) = None
  ∧ format_price (purchase_price (edition_row (str "XYZ"))) = Returns (str "$0.00")
  ∧ ∃ out cells,
      convert_row (edition_row (str "XYZ")) = Returns out
      ∧ dict_lookup (str "Edition") out = Some PNone
      ∧ dict_to_list output_columns out = Returns cells
      ∧ map csv_cell cells !! 3%nat = Some (str "").
Proof.
  split; [vm_compute; reflexivity|].
  split; [vm_compute; reflexivity|].
  apply (absent_edition_is_None (edition_row (str "XYZ")) (str "$0.00"));
    vm_compute; reflexivity.
Defined.

(** ** Edition code *)

(** C4. For every input row, the output ['Edition Code'] is the Edition Code
    Table entry of the normalized code when the table has it, and the
    normalized code itself otherwise. The normalized code is the uppercase
    form of the Edition cell without the whitespace around it: whenever the
    cell reads as a text that neither begins nor ends with whitespace, with
    whitespace before and after it, the normalized code is the uppercase
    form of that text. *)
Theorem edition_code_lookup_or_passthrough (old_row : InRow) (price : pystr) :
  format_price (purchase_price old_row) = Returns price →
  ∃ out,
    convert_row old_row = Returns out
    ∧ dict_lookup (str "Edition Code") out
      = Some (PStr (match edition_code_map !! normalized_code old_row with
                    | Some deckbox_code => deckbox_code
                    | None => normalized_code old_row
                    end))
    ∧ ∀ l core r : pystr,
        edition_text old_row = l ++ core ++ r →
        forallb PyStr.isspace l = true →
        forallb PyStr.isspace r = true →
        ends_without_space core = true →
        normalized_code old_row = PyStr.upper core.
Proof.
  intros Hp. exists (filled_row old_row price).
  split; [by apply convert_row_returns|]. split.
  - rewrite filled_row_edition_code. unfold get_or.
    by destruct (edition_code_map !! normalized_code old_row).
  - intros l core r Ht Hl Hr Hcore. unfold normalized_code.
    by rewrite Ht, (strip_surrounding_space l core r Hl Hr),
      (strip_ends_without_space core Hcore).
Qed.

(** Input [3ED] yields [3E], input [ISD] yields [ISD]; so do [3ed] after a
    no-break space and a space and before a tab, and [isd] before a
    next-line character; [mir] after a no-break space yields [MI]. *)
Lemma edition_code_lookup_or_passthrough_witness :
  (format_price (purchase_price (edition_row (str "3ED"))) = Returns (str "$0.00")
   ∧ ∃ out, convert_row (edition_row (str "3ED")) = Returns out
            ∧ dict_lookup (str "Edition Code") out = Some (PStr (str "3E")))
  ∧ (format_price (purchase_price (edition_row (str "ISD"))) = Returns (str "$0.00")
     ∧ ∃ out, convert_row (edition_row (str "ISD")) = Returns out
              ∧ dict_lookup (str "Edition Code") out = Some (PStr (str "ISD")))
  ∧ (∃ out,
       convert_row (edition_row ([160; 32] ++ str "3ed" ++ [9])%N) = Returns out
            ∧ normalized_code (edition_row ([160; 32] ++ str "3ed" ++ [9])%N)
              = str "3ED"
            ∧ dict_lookup (str "Edition Code") out = Some (PStr (str "3E")))
  ∧ (∃ out, convert_row (edition_row (str "isd" ++ [133])%N) = Returns out
            ∧ normalized_code (edition_row (str "isd" ++ [133])%N) = str "ISD"
            ∧ dict_lookup (str "Edition Code") out = Some (PStr (str "ISD")))
  ∧ (∃ out, convert_row (edition_row ([160] ++ str "mir")%N) = Returns out
            ∧ normalized_code (edition_row ([160] ++ str "mir")%N) = str "MIR"
            ∧ dict_lookup (str "Edition Code") out = Some (PStr (str "MI"))).
Proof.
  split; [|split; [|split; [|split]]].
  - split; [vm_compute; reflexivity|].
    destruct (edition_code_lookup_or_passthrough
                (edition_row (str "3ED")) (str "$0.00"))
      as (out & Hc & Hl & _); [vm_compute; reflexivity|].
    exists out. split; [exact Hc|]. rewrite Hl. vm_compute. reflexivity.
  - split; [vm_compute; reflexivity|].
    destruct (edition_code_lookup_or_passthrough
                (edition_row (str "ISD")) (str "$0.00"))
      as (out & Hc & Hl & _); [vm_compute; reflexivity|].
    exists out. split; [exact Hc|]. rewrite Hl. vm_compute. reflexivity.
  - destruct (edition_code_lookup_or_passthrough
                (edition_row ([160; 32] ++ str "3ed" ++ [9])%N) (str "$0.00"))
      as (out & Hc & Hl & Hn); [vm_compute; reflexivity|].
    specialize (Hn [160; 32]%N (str "3ed") [9]%N eq_refl eq_refl eq_refl eq_refl).
    exists out. split; [exact Hc|]. split; [rewrite Hn; vm_compute; reflexivity|].
    rewrite Hl, Hn. vm_compute. reflexivity.
  - destruct (edition_code_lookup_or_passthrough
                (edition_row (str "isd" ++ [133])%N) (str "$0.00"))
      as (out & Hc & Hl & Hn); [vm_compute; reflexivity|].
    specialize (Hn [] (str "isd") [133]%N eq_refl eq_refl eq_refl eq_refl).
    exists out. split; [exact Hc|]. split; [rewrite Hn; vm_compute; reflexivity|].
    rewrite Hl, Hn. vm_compute. reflexivity.
  - destruct (edition_code_lookup_or_passthrough
                (edition_row ([160] ++ str "mir")%N) (str "$0.00"))
      as (out & Hc & Hl & Hn); [vm_compute; reflexivity|].
    specialize (Hn [160]%N (str "mir") [] eq_refl eq_refl eq_refl eq_refl).
    exists out. split; [exact Hc|]. split; [rewrite Hn; vm_compute; reflexivity|].
    rewrite Hl, Hn. vm_compute. reflexivity.
Defined.

(** ** Constant fields, columns, the end-to-end row *)

(** C6. For every input row, the row produced by [convert_row] has
    ['Tradelist Count'] equal to ["0"] and each of ['Signed'],
    ['Artist Proof'], ['Altered Art'], ['Misprint'], ['Promo'],
    ['Textless'], ['Printing Id'], ['Printing Note'] equal to the empty
    pystr. The row is produced whenever the price formatting returns. *)
Theorem constant_fields (old_row : InRow) (price : pystr) :
  format_price (purchase_price old_row) = Returns price →
  ∃ out,
    convert_row old_row = Returns out
    ∧ dict_lookup (str "Tradelist Count") out = Some (PStr (str "0"))
    ∧ dict_lookup (str "Signed") out = Some (PStr (str ""))
    ∧ dict_lookup (str "Artist Proof") out = Some (PStr (str ""))
    ∧ dict_lookup (str "Altered Art") out = Some (PStr (str ""))
    ∧ dict_lookup (str "Misprint") out = Some (PStr (str ""))
    ∧ dict_lookup (str "Promo") out = Some (PStr (str ""))
    ∧ dict_lookup (str "Textless") out = Some (PStr (str ""))
    ∧ dict_lookup (str "Printing Id") out = Some (PStr (str ""))
    ∧ dict_lookup (str "Printing Note") out = Some (PStr (str "")).
Proof.
  intros Hp. exists (filled_row old_row price).
  split; [by apply convert_row_returns|].
  repeat split; reflexivity.
Qed.

Lemma constant_fields_witness :
  format_price (purchase_price bolt_row_extra) = Returns (str "$1.25")
  ∧ ∃ out,
      convert_row bolt_row_extra = Returns out
      ∧ dict_lookup (str "Tradelist Count") out = Some (PStr (str "0"))
      ∧ dict_lookup (str "Signed") out = Some (PStr (str ""))
      ∧ dict_lookup (str "Artist Proof") out = Some (PStr (str ""))
      ∧ dict_lookup (str "Altered Art") out = Some (PStr (str ""))
      ∧ dict_lookup (str "Misprint") out = Some (PStr (str ""))
      ∧ dict_lookup (str "Promo") out = Some (PStr (str ""))
      ∧ dict_lookup (str "Textless") out = Some (PStr (str ""))
      ∧ dict_lookup (str "Printing Id") out = Some (PStr (str ""))
      ∧ dict_lookup (str "Printing Note") out = Some (PStr (str "")).
Proof.
  split; [vm_compute; reflexivity|].
  apply (constant_fields bolt_row_extra (str "$1.25")). vm_compute. reflexivity.
Defined.

(** C7. For every input row, with extra unrecognized columns or with
    recognized columns missing, the row produced by [convert_row] has
    exactly the nineteen output columns, in the fixed order, and no
    others. *)
Theorem output_row_has_the_19_columns (old_row : InRow) (price : pystr) :
  format_price (purchase_price old_row) = Returns price →
  ∃ out,
    convert_row old_row = Returns out
    ∧ dict_keys out
      = [ str "Count"; str "Tradelist Count"; str "Name"; str "Edition";
          str "Edition Code"; str "Card Number"; str "Condition"; str "Language";
          str "Foil"; str "Signed"; str "Artist Proof"; str "Altered Art";
          str "Misprint"; str "Promo"; str "Textless"; str "Printing Id";
          str "Printing Note"; str "Tags"; str "My Price" ]
    ∧ dict_keys out = output_columns
    ∧ length out = 19%nat.
Proof.
  intros Hp. exists (filled_row old_row price).
  split; [by apply convert_row_returns|].
  repeat split; reflexivity.
Qed.

Lemma output_row_has_the_19_columns_witness :
  format_price (purchase_price sparse_row) = Returns (str "$0.00")
  ∧ ∃ out,
      convert_row sparse_row = Returns out
      ∧ dict_keys out
        = [ str "Count"; str "Tradelist Count"; str "Name"; str "Edition";
            str "Edition Code"; str "Card Number"; str "Condition"; str "Language";
            str "Foil"; str "Signed"; str "Artist Proof"; str "Altered Art";
            str "Misprint"; str "Promo"; str "Textless"; str "Printing Id";
            str "Printing Note"; str "Tags"; str "My Price" ]
      ∧ dict_keys out = output_columns
      ∧ length out = 19%nat.
Proof.
  split; [vm_compute; reflexivity|].
  apply (output_row_has_the_19_columns sparse_row (str "$0.00")).
  vm_compute. reflexivity.
Defined.

(** C8. The row Count=2, Name=Lightning Bolt, Edition=mir, Collector
    Number=150, Condition=NM, Language=English, Foil=Foil, Tags empty,
    Purchase Price=$1.25 converts to 2, 0, Lightning Bolt, Mirage, MI, 150,
    NM, English, Foil, eight empty strings, an empty Tags and $1.25, in
    the order of the output columns; the written record is the same
    nineteen cells. *)
Theorem lightning_bolt_row :
  convert_row bolt_row
  = Returns [ (str "Count", PStr (str "2"));
              (str "Tradelist Count", PStr (str "0"));
              (str "Name", PStr (str "Lightning Bolt"));
              (str "Edition", PStr (str "Mirage"));
              (str "Edition Code", PStr (str "MI"));
              (str "Card Number", PStr (str "150"));
              (str "Condition", PStr (str "NM"));
              (str "Language", PStr (str "English"));
              (str "Foil", PStr (str "Foil"));
              (str "Signed", PStr (str ""));
              (str "Artist Proof", PStr (str ""));
              (str "Altered Art", PStr (str ""));
              (str "Misprint", PStr (str ""));
              (str "Promo", PStr (str ""));
              (str "Textless", PStr (str ""));
              (str "Printing Id", PStr (str ""));
              (str "Printing Note", PStr (str ""));
              (str "Tags", PStr (str ""));
              (str "My Price", PStr (str "$1.25")) ]
  ∧ run [bolt_row] None []
    = ([ output_columns;
         [ str "2"; str "0"; str "Lightning Bolt"; str "Mirage"; str "MI";
           str "150"; str "NM"; str "English"; str "Foil";
           str ""; str ""; str ""; str ""; str ""; str ""; str ""; str "";
           str ""; str "$1.25" ] ],
       None).
Proof. split; vm_compute; reflexivity. Qed.

(** ** Only the recognized columns matter *)

(** C10. Two input rows that agree on the value, or the absence, of
    each of the nine recognized keys are converted alike, whatever other
    keys and surplus cells either row has. *)
Theorem only_recognized_keys_matter (row1 row2 : InRow) :
  Forall (λ k, named row1 !! k = named row2 !! k) recognized_keys →
  convert_row row1 = convert_row row2.
Proof.
  intros H. unfold recognized_keys in H.
  repeat (apply Forall_cons_1 in H; destruct H as [? H]).
  cbv beta in *.
  rewrite !convert_row_unfold.
  unfold filled_row, purchase_price, row_get.
  repeat match goal with
         | Heq : named row1 !! _ = named row2 !! _ |- _ => rewrite Heq; clear Heq
         end.
  reflexivity.
Qed.

Lemma only_recognized_keys_matter_witness :
  Forall (λ k, named bolt_row !! k = named bolt_row_extra !! k) recognized_keys
  ∧ named bolt_row ≠ named bolt_row_extra
  ∧ convert_row bolt_row = convert_row bolt_row_extra.
Proof.
  assert (H : Forall (λ k, named bolt_row !! k = named bolt_row_extra !! k)
                recognized_keys).
  { repeat constructor; vm_compute; reflexivity. }
  split; [exact H|].
  split; [|exact (only_recognized_keys_matter bolt_row bolt_row_extra H)].
  intros Heq.
  assert (Hl : named bolt_row !! str "Rarity" = named bolt_row_extra !! str "Rarity")
    by (by rewrite Heq).
  vm_compute in Hl. discriminate Hl.
Defined.




(** ** Prices *)

(** The only exception of [Decimal] is the one that the [try] catches. *)
Lemma Decimal_of_str_raises (s : pystr) (e : exn) :
  PyDecimal.Decimal_of_str s = Raises e → e = InvalidOperation.
Proof.
  unfold PyDecimal.Decimal_of_str.
  destruct (PyDecimal.parse _) as [d|]; [destruct (PyDecimal.representable d)|];
    by intros [= <-].
Qed.

Lemma format_price_unfold (v : pystr) :
  v ≠ [] →
  format_price (PStr v)
  = match PyDecimal.Decimal_of_str (price_text v) with
    | Raises _ => Returns (str "$0.00")
    | Returns d =>
        q ← PyDecimal.quantize_cents d;
        Returns (str ("$" +:+ PyDecimal.Decimal_str q))
    end.
Proof.
  intros Hv. destruct v as [|c v]; [done|].
  unfold format_price, price_text.
  destruct (PyDecimal.Decimal_of_str _) as [d|e] eqn:Hd; [reflexivity|].
  by rewrite (Decimal_of_str_raises _ _ Hd).
Qed.

(** An absent or empty price is [$0.00]. *)
Lemma format_price_absent :
  format_price PNone = Returns (str "$0.00")
  ∧ format_price (PStr (str "")) = Returns (str "$0.00").
Proof. split; reflexivity. Qed.

(** A text that [Decimal] refuses is [$0.00]: the failure is absorbed. *)
Lemma format_price_unparsable (v : pystr) (e : exn) :
  PyDecimal.Decimal_of_str (price_text v) = Raises e →
  format_price (PStr v) = Returns (str "$0.00").
Proof.
  intros Hd. destruct (decide (v = [])) as [->|Hv]; [reflexivity|].
  by rewrite (format_price_unfold v Hv), Hd.
Qed.


(** The value table of the specification. *)
Lemma format_price_value_table :
  format_price (PStr (str "")) = Returns (str "$0.00")
  ∧ format_price PNone = Returns (str "$0.00")
  ∧ format_price (PStr (str "$3.5")) = Returns (str "$3.50")
  ∧ format_price (PStr (str "abc")) = Returns (str "$0.00")
  ∧ format_price (PStr (str "3.005")) = Returns (str "$3.00")
  ∧ format_price (PStr (str "3.015")) = Returns (str "$3.02").
Proof. repeat split; vm_compute; reflexivity. Qed.

(** ** The text of a quantized decimal *)

Section decimal_text_facts.
Import CStr PyDecimal.

Lemma str_app_nil_r (s : string) : s +:+ "" = s.
Proof.
  induction s as [|c s IH]; [done|].
  change (String c s +:+ "") with (String c (s +:+ "")). by rewrite IH.
Qed.

Lemma all_chars_app (p : ascii → bool) (s t : string) :
  all_chars p (s +:+ t) = all_chars p s && all_chars p t.
Proof.
  induction s as [|c s IH]; [done|].
  change (String c s +:+ t) with (String c (s +:+ t)).
  cbn [all_chars]. by rewrite IH, andb_assoc.
Qed.

Lemma length_app_str (s t : string) :
  String.length (s +:+ t) = (String.length s + String.length t)%nat.
Proof.
  induction s as [|c s IH]; [done|].
  change (String c s +:+ t) with (String c (s +:+ t)).
  cbn [String.length]. by rewrite IH.
Qed.

Lemma all_chars_substring (p : ascii → bool) (n m : nat) (s : string) :
  all_chars p s = true → all_chars p (String.substring n m s) = true.
Proof.
  revert n m. induction s as [|c s IH]; intros n m Hs.
  - by destruct n, m.
  - cbn [all_chars] in Hs. apply andb_prop in Hs as [Hc Hs].
    destruct n as [|n]; [destruct m as [|m]|]; cbn [String.substring all_chars].
    + done.
    + by rewrite Hc, IH.
    + by apply IH.
Qed.

Lemma length_substring (n m : nat) (s : string) :
  (n + m ≤ String.length s)%nat → String.length (String.substring n m s) = m.
Proof.
  revert n m. induction s as [|c s IH]; intros n m Hs; cbn [String.length] in Hs.
  - by destruct n, m; cbn in *; try lia.
  - destruct n as [|n]; [destruct m as [|m]|]; cbn [String.substring String.length].
    + done.
    + rewrite IH; [done|]. cbn. lia.
    + apply IH. lia.
Qed.

Lemma all_chars_zeros (n : nat) : all_chars isdigit (zeros n) = true.
Proof. induction n as [|n IH]; [done|]. cbn [zeros all_chars]. by rewrite IH. Qed.

Lemma length_zeros (n : nat) : String.length (zeros n) = n.
Proof. induction n as [|n IH]; [done|]. cbn [zeros String.length]. by rewrite IH. Qed.

Lemma span_digits_point (a f : string) :
  all_chars isdigit a = true →
  span_digits (a +:+ String "." f) = (a, String "." f).
Proof.
  induction a as [|c a IH]; [done|].
  change (String c a +:+ String "." f) with (String c (a +:+ String "." f)).
  cbn [all_chars span_digits]. intros [Hc Ha]%andb_prop.
  by rewrite Hc, (IH Ha).
Qed.

Lemma NilEmpty_all_digits (u : Decimal.uint) :
  all_chars isdigit (NilEmpty.string_of_uint u) = true.
Proof.
  induction u as [|u IH|u IH|u IH|u IH|u IH|u IH|u IH|u IH|u IH|u IH];
    [reflexivity|..];
    cbn [NilEmpty.string_of_uint all_chars]; by rewrite IH.
Qed.

Lemma str_of_N_all_digits (n : N) : all_chars isdigit (str_of_N n) = true.
Proof.
  unfold str_of_N, NilZero.string_of_uint.
  destruct (N.to_uint n) eqn:Hu; [reflexivity|..]; rewrite <- Hu at 1;
   apply NilEmpty_all_digits.
Qed.

Lemma str_of_N_nonempty (n : N) : (0 < String.length (str_of_N n))%nat.
Proof.
  unfold str_of_N, NilZero.string_of_uint.
  destruct (N.to_uint n); cbn [NilEmpty.string_of_uint String.length]; lia.
Qed.

Lemma digit_is_not_minus (c : ascii) : isdigit c = true → Ascii.eqb "-" c = false.
Proof.
  intros Hc. destruct (Ascii.eqb_spec "-" c) as [<-|]; [discriminate Hc | reflexivity].
Qed.

Lemma amount_shape (sg : bool) (int frac : string) :
  all_chars isdigit int = true → (0 < String.length int)%nat →
  all_chars isdigit frac = true → String.length frac = 2%nat →
  is_dollar_text
    ("$" +:+ (if sg then "-" else "") +:+ int +:+ ("." +:+ frac) +:+ "") = true.
Proof.
  intros Hi Hn Hf Hl.
  rewrite str_app_nil_r.
  assert (Hbody : is_amount (int +:+ String "." frac) = true).
  { unfold is_amount. rewrite (span_digits_point int frac Hi).
    destruct int as [|c int]; [cbn in Hn; lia|].
    by rewrite Hl, Hf. }
  destruct sg.
  - exact Hbody.
  - destruct int as [|c int]; [cbn in Hn; lia|].
    cbn [all_chars] in Hi. apply andb_prop in Hi as [Hc _].
    change ("$" +:+ "" +:+ String c int +:+ "." +:+ frac)
      with (String "$" (String c (int +:+ String "." frac))).
    cbn [is_dollar_text startswith].
    rewrite (digit_is_not_minus c Hc). exact Hbody.
Qed.

Lemma dollar_text_finite (sg : bool) (q : N) :
  is_dollar_text ("$" +:+ Decimal_str (Finite sg q (-2))) = true.
Proof.
  unfold Decimal_str.
  pose proof (str_of_N_all_digits q) as Hd.
  pose proof (str_of_N_nonempty q) as Hne.
  set (d := str_of_N q) in *.
  assert (Hlen : 1 ≤ Z.of_nat (String.length d)) by lia.
  set (len := Z.of_nat (String.length d)) in *.
  cbv zeta beta.
  change (-2 <=? 0) with true. cbn [andb].
  rewrite (proj2 (Z.ltb_lt (-6) (-2 + len))) by lia.
  replace (-2 + len - (-2 + len)) with 0 by lia.
  change (0 =? 0) with true. cbv iota.
  destruct (Z.leb_spec (-2 + len) 0) as [Hle|Hgt].
  - apply (amount_shape sg "0" (zeros (Z.to_nat (- (-2 + len))) +:+ d)).
    + reflexivity.
    + cbn. lia.
    + by rewrite all_chars_app, all_chars_zeros, Hd.
    + rewrite length_app_str, length_zeros. unfold len in *. lia.
  - rewrite (proj2 (Z.leb_gt len (-2 + len))) by lia.
    apply (amount_shape sg).
    + by apply all_chars_substring.
    + rewrite length_substring; unfold len in *; lia.
    + by apply all_chars_substring.
    + rewrite length_substring; unfold len in *; lia.
Qed.

(** What [quantize] returns is a decimal with two fractional digits, or a
    quiet NaN that was one already. *)
Lemma quantize_cents_returns (d q : Decimal) :
  quantize_cents d = Returns q →
  (∃ sg c, q = Finite sg c (-2))
  ∨ (∃ sg p, d = NaN sg p ∧ q = NaN sg (p mod Z.to_N (10 ^ prec))%N).
Proof.
  destruct d as [sg c e|sg|sg p|sg p]; cbn [quantize_cents];
    [|discriminate|intros [= <-]; right; by exists sg, p|discriminate].
  destruct c as [|c]; [intros [= <-]; left; by exists sg, 0%N|].
  destruct (prec <? _); [discriminate|].
  destruct (prec <? _); [discriminate|].
  intros [= <-]. left. by eexists _, _.
Qed.

Lemma NaN_is_not_a_dollar_text (sg : bool) (p : N) :
  is_dollar_text ("$" +:+ Decimal_str (NaN sg p)) = false.
Proof. destruct sg; reflexivity. Qed.

Lemma all_chars_impl_digit (s : string) :
  all_chars isdigit s = true → all_chars (λ c, code c <? 128)%N s = true.
Proof.
  induction s as [|c s IH]; [done|]. cbn [all_chars].
  intros [Hc Hs]%andb_prop. rewrite (IH Hs), andb_true_r.
  unfold isdigit in Hc. apply andb_prop in Hc as [_ Hc]. apply N.leb_le in Hc.
  apply N.ltb_lt. lia.
Qed.

Lemma span_digits_spec (s d r : string) :
  span_digits s = (d, r) → s = d +:+ r ∧ all_chars isdigit d = true.
Proof.
  revert d r. induction s as [|c s IH]; intros d r; cbn [span_digits].
  - by intros [= <- <-].
  - destruct (isdigit c) eqn:Hc; [|by intros [= <- <-]].
    destruct (span_digits s) as [d' r'] eqn:Hs. intros [= <- <-].
    destruct (IH d' r' eq_refl) as [-> Hd]. split; [reflexivity|].
    cbn [all_chars]. by rewrite Hc, Hd.
Qed.

Lemma ascii_text_str (a : string) :
  all_chars (λ c, code c <? 128)%N a = true → ascii_text (str a) = Some a.
Proof.
  induction a as [|c a IH]; [reflexivity|]. cbn [all_chars str ascii_text].
  intros [Hc Ha]%andb_prop. unfold code in Hc. rewrite Hc, (IH Ha).
  cbn [fmap option_fmap option_map]. by rewrite ascii_N_embedding.
Qed.

Lemma ascii_text_str_inv (a a' : string) :
  ascii_text (str a) = Some a' → a' = a.
Proof.
  revert a'. induction a as [|c a IH]; intros a'; cbn [str ascii_text].
  - by intros [= <-].
  - destruct (N_of_ascii c <? 128)%N; [|discriminate].
    destruct (ascii_text (str a)) as [b|]; [|discriminate].
    cbn [fmap option_fmap option_map]. intros [= <-].
    by rewrite ascii_N_embedding, (IH b eq_refl).
Qed.

(** A dollar amount is written in ASCII. *)
Lemma dollar_text_ascii (a : string) :
  is_dollar_text a = true → all_chars (λ c, code c <? 128)%N a = true.
Proof.
  destruct a as [|c r]; [discriminate|]. cbn [is_dollar_text].
  intros [Hc Hr]%andb_prop. apply Ascii.eqb_eq in Hc as ->.
  cbn [all_chars]. apply andb_true_intro. split; [reflexivity|].
  assert (Hbody : ∀ t, is_amount t = true → all_chars (λ c, code c <? 128)%N t = true).
  { intros t. unfold is_amount.
    destruct (span_digits t) as [int rest] eqn:Hs.
    destruct (span_digits_spec _ _ _ Hs) as [-> Hint].
    destruct int as [|i int]; [discriminate|].
    destruct rest as [|p frac]; [discriminate|].
    destruct (Ascii.eqb_spec p ".") as [->|Hp].
    - intros [_ Hf]%andb_prop. rewrite all_chars_app.
      rewrite (all_chars_impl_digit _ Hint). cbn [all_chars].
      by rewrite (all_chars_impl_digit _ Hf).
    - destruct p as [[] [] [] [] [] [] [] []]; try discriminate. by destruct Hp. }
  destruct r as [|m r]; [discriminate Hr|].
  cbn [startswith] in Hr.
  destruct (Ascii.eqb_spec "-" m) as [<-|Hm].
  - cbn [tail] in Hr. cbn [all_chars]. by rewrite (Hbody _ Hr).
  - by apply Hbody.
Qed.

(** On the text of a literal, the two readings of an amount agree. *)
Lemma is_dollar_amount_str (a : string) :
  is_dollar_amount (str a) = is_dollar_text a.
Proof.
  unfold is_dollar_amount.
  destruct (is_dollar_text a) eqn:Ha.
  - by rewrite (ascii_text_str a (dollar_text_ascii a Ha)).
  - destruct (ascii_text (str a)) as [a'|] eqn:Ht; [|reflexivity].
    by rewrite (ascii_text_str_inv a a' Ht).
Qed.

Lemma dollar_amount_finite (sg : bool) (q : N) :
  is_dollar_amount (str ("$" +:+ Decimal_str (Finite sg q (-2)))) = true.
Proof. rewrite is_dollar_amount_str. apply dollar_text_finite. Qed.

Lemma NaN_is_not_an_amount (sg : bool) (p : N) :
  is_dollar_amount (str ("$" +:+ Decimal_str (NaN sg p))) = false.
Proof. rewrite is_dollar_amount_str. apply NaN_is_not_a_dollar_text. Qed.

End decimal_text_facts.

(** A price that [format_price] returns is a dollar amount with two
    fractional digits, unless the text was a quiet NaN. *)
Lemma format_price_shape (v : PyVal) (res : pystr) :
  format_price v = Returns res →
  is_dollar_amount res = true
  ∨ (is_dollar_amount res = false
     ∧ ∃ s sg p, v = PStr s
                 ∧ PyDecimal.Decimal_of_str (price_text s)
                   = Returns (PyDecimal.NaN sg p)).
Proof.
  destruct v as [|s]; [intros [= <-]; by left|].
  destruct (decide (s = [])) as [->|Hs]; [intros [= <-]; by left|].
  rewrite (format_price_unfold s Hs).
  destruct (PyDecimal.Decimal_of_str (price_text s)) as [d|e] eqn:Hd;
    [|intros [= <-]; by left].
  destruct (PyDecimal.quantize_cents d) as [q|e] eqn:Hq; [|discriminate].
  intros [= <-].
  destruct (quantize_cents_returns d q Hq) as [(sg & c & ->)|(sg & p & -> & ->)].
  - left. apply dollar_amount_finite.
  - right. split; [apply NaN_is_not_an_amount|]. by exists s, sg, p.
Qed.

(** C2 fails on the code. [Decimal] accepts the text [Infinity], and
    [quantize], which is not covered by the [try], raises
    [InvalidOperation]: the exception leaves [format_price], then
    [convert_row], and ends the run after the header. *)
Theorem format_price_raises_on_Infinity :
  format_price (PStr (str "Infinity")) = Raises InvalidOperation
  ∧ convert_row infinity_row = Raises InvalidOperation
  ∧ run [infinity_row; bolt_row] None []
    = ([output_columns], Some InvalidOperation).
Proof. repeat split; vm_compute; reflexivity. Qed.

(** Other prices that raise: a signaling NaN, and an amount of 27 or more
    integer digits. *)
Lemma format_price_raises_more :
  format_price (PStr (str "sNaN")) = Raises InvalidOperation
  ∧ format_price (PStr (str "1e26")) = Raises InvalidOperation
  ∧ format_price (PStr (str "$99999999999999999999999999.995"))
    = Raises InvalidOperation.
Proof. repeat split; vm_compute; reflexivity. Qed.

(** C3 fails on the code. The value table holds, but not every successful
    result has two fractional digits: [Decimal] accepts the text [NaN],
    [quantize] hands a quiet NaN through, and the result is [$NaN]. *)
Theorem format_price_NaN :
  format_price (PStr (str "NaN")) = Returns (str "$NaN")
  ∧ is_dollar_amount (str "$NaN") = false
  ∧ PyDecimal.Decimal_of_str (price_text (str "NaN"))
    = Returns (PyDecimal.NaN false 0).
Proof. repeat split; vm_compute; reflexivity. Qed.

(** ** The loop *)

(** The loop carries nothing from one row to the next: what it appends to
    the file is the record of each row in turn. *)
Lemma process_rows_records
    (rows : list InRow) (reader_end : option exn) (out : list (list pystr)) :
  process_rows rows reader_end out
  = (out ++ (records_until_raise rows reader_end).1,
     (records_until_raise rows reader_end).2).
Proof.
  revert out. induction rows as [|in_row rest IH]; intros out.
  - cbn. by rewrite app_nil_r.
  - cbn [process_rows records_until_raise]. unfold written_record, writerow.
    destruct (convert_row in_row) as [out_row|e]; cbn [mbind result_bind fst snd];
      [|by rewrite app_nil_r].
    destruct (dict_to_list output_columns out_row) as [cells|e];
      cbn [mbind result_bind fst snd]; [|by rewrite app_nil_r].
    rewrite IH. destruct (records_until_raise rest reader_end) as [records end_].
    cbn [fst snd]. by rewrite <- app_assoc.
Qed.

(** ** The converter in its world *)

Section world_facts.
Import PyDecimal.

Lemma flags_or_no_flags_r (f : Flags) : flags_or f no_flags = f.
Proof. destruct f. unfold flags_or. cbn. by rewrite !orb_false_r. Qed.


Lemma flags_or_assoc (f g h : Flags) :
  flags_or f (flags_or g h) = flags_or (flags_or f g) h.
Proof. destruct f, g, h. unfold flags_or. cbn. by rewrite !orb_assoc. Qed.


Lemma signal_no_flags (w : World) : signal no_flags w = w.
Proof. destruct w. unfold signal. cbn. by rewrite flags_or_no_flags_r. Qed.

Lemma format_price_in_eq (v : PyVal) (w : World) :
  format_price_in v w = (format_price v, signal (format_price_signals v) w).
Proof.
  destruct w as [a b c f o].
  destruct v as [|[|ch v]].
  - cbn. unfold signal. cbn. by rewrite flags_or_no_flags_r.
  - cbn. unfold signal. cbn. by rewrite flags_or_no_flags_r.
  - unfold format_price_in, format_price, format_price_signals.
    fold (price_text (ch :: v)).
    set (s := price_text (ch :: v)).
    unfold mbind, St_bind, st_try, Decimal_in, quantize_cents_in, st_return, st_raise.
    cbn [fst snd].
    destruct (Decimal_of_str s) as [d|e] eqn:Hd.
    + change (Decimal_of_str (str "0.01"))
        with (Returns (Finite false 1 (-2)) : result Decimal).
      cbv iota beta.
      unfold signal.
      cbn [g_edition_code_map g_edition_map g_output_columns decimal_flags
           output_file].
      rewrite <- !flags_or_assoc.
      destruct (quantize_cents d); reflexivity.
    + rewrite (Decimal_of_str_raises _ _ Hd). reflexivity.
Qed.











End world_facts.


(** * Further properties of the converter *)

(** ** The record of a row *)

Lemma written_record_priced (old_row : InRow) (price : pystr) :
  format_price (purchase_price old_row) = Returns price →
  written_record old_row = Returns (row_record old_row price).
Proof.
  intros Hp. unfold written_record.
  rewrite (convert_row_returns old_row price Hp).
  cbn [mbind result_bind]. rewrite dict_to_list_filled.
  cbn [mbind result_bind]. f_equal.
  change (map csv_cell (map snd (filled_row old_row price)))
    with [ csv_cell (row_get old_row (str "Count") (PStr (str "")));
           str "0";
           csv_cell (row_get old_row (str "Name") (PStr (str "")));
           csv_cell (get_or_None edition_map
             (PyStr.upper (PyStr.upper (PyStr.strip
                (or_empty (row_get old_row (str "Edition") (PStr (str ""))))))));
           csv_cell (let c := PyStr.upper (PyStr.strip
                (or_empty (row_get old_row (str "Edition") (PStr (str ""))))) in
                get_or edition_code_map c c);
           csv_cell (row_get old_row (str "Collector Number") (PStr (str "")));
           csv_cell (row_get old_row (str "Condition") (PStr (str "")));
           csv_cell (row_get old_row (str "Language") (PStr (str "")));
           csv_cell (row_get old_row (str "Foil") (PStr (str "")));
           str ""; str ""; str ""; str ""; str ""; str ""; str ""; str "";
           csv_cell (row_get old_row (str "Tags") (PStr (str "")));
           price ].
  unfold row_record. rewrite upper_idem, or_empty_edition.
  fold (normalized_code old_row). cbv zeta.
  unfold get_or_None, get_or.
  destruct (edition_map !! normalized_code old_row),
           (edition_code_map !! normalized_code old_row); reflexivity.
Qed.


Lemma written_record_raises (old_row : InRow) (e : exn) :
  written_record old_row = Raises e
  ↔ format_price (purchase_price old_row) = Raises e.
Proof.
  unfold written_record. rewrite convert_row_unfold.
  destruct (format_price (purchase_price old_row)) as [price|e'];
    cbn [mbind result_bind].
  - rewrite dict_to_list_filled. cbn [mbind result_bind]. split; discriminate.
  - split; intros [= ->]; reflexivity.
Qed.

(** ** The loop *)



Lemma records_until_raise_stops
    (good rest : list InRow) (bad : InRow) (e : exn) (reader_end : option exn) :
  Forall priced good →
  format_price (purchase_price bad) = Raises e →
  ∃ records,
    records_until_raise (good ++ bad :: rest) reader_end = (records, Some e)
    ∧ Forall2 (λ old_row record,
         ∃ price, format_price (purchase_price old_row) = Returns price
                  ∧ record = row_record old_row price) good records.
Proof.
  intros Hgood Hbad.
  induction Hgood as [|old_row good' [price Hp] _ (records & Hr & Hall)].
  - exists []. cbn [app records_until_raise].
    rewrite (proj2 (written_record_raises bad e) Hbad).
    split; [reflexivity | constructor].
  - exists (row_record old_row price :: records).
    change ((old_row :: good') ++ bad :: rest) with (old_row :: (good' ++ bad :: rest)).
    cbn [records_until_raise].
    rewrite (written_record_priced old_row price Hp), Hr.
    split; [reflexivity|]. constructor; [by exists price | exact Hall].
Qed.

(** ** Digits and values *)

Section decimal_value_facts.
Import CStr PyDecimal.

Lemma digits_val_from_uint (u a : Decimal.uint) :
  digits_val_from (DecimalPos.Unsigned.of_lu a) (NilEmpty.string_of_uint u)
  = DecimalPos.Unsigned.of_lu (Decimal.revapp u a).
Proof.
  revert a.
  induction u as [|u IH|u IH|u IH|u IH|u IH|u IH|u IH|u IH|u IH|u IH];
    intros a; [reflexivity|..];
    cbn [NilEmpty.string_of_uint digits_val_from Decimal.revapp];
    rewrite <- IH; f_equal;
    cbn [DecimalPos.Unsigned.of_lu]; unfold digit_val, code;
    cbn [N_of_ascii N_of_digits]; lia.
Qed.

(** Printing a number and reading the digits back gives the number. *)
Lemma digits_val_str_of_N (n : N) : digits_val (str_of_N n) = n.
Proof.
  unfold str_of_N, digits_val.
  rewrite <- (DecimalN.Unsigned.of_to n) at 2.
  unfold N.of_uint. rewrite DecimalPos.Unsigned.of_uint_alt. unfold Decimal.rev.
  rewrite <- digits_val_from_uint.
  unfold NilZero.string_of_uint.
  destruct (N.to_uint n); reflexivity.
Qed.

Lemma digit_val_le_9 (c : ascii) : isdigit c = true → (digit_val c ≤ 9)%N.
Proof.
  unfold isdigit, digit_val. intros [H1 H2]%andb_prop.
  apply N.leb_le in H1, H2. lia.
Qed.

Lemma digits_val_from_bounds (s : string) (acc : N) :
  all_chars isdigit s = true →
  (acc * 10 ^ N.of_nat (String.length s) ≤ digits_val_from acc s
   ∧ digits_val_from acc s < (acc + 1) * 10 ^ N.of_nat (String.length s))%N.
Proof.
  revert acc. induction s as [|c s IH]; intros acc Hs.
  - cbn. lia.
  - cbn [all_chars] in Hs. apply andb_prop in Hs as [Hc Hs].
    cbn [digits_val_from String.length].
    destruct (IH (10 * acc + digit_val c)%N Hs) as [Hlo Hhi].
    pose proof (digit_val_le_9 c Hc) as H9.
    rewrite Nat2N.inj_succ, N.pow_succ_r'.
    set (P := (10 ^ N.of_nat (String.length s))%N) in *.
    split; nia.
Qed.

Lemma digits_val_from_app (s t : string) (acc : N) :
  digits_val_from acc (s +:+ t) = digits_val_from (digits_val_from acc s) t.
Proof.
  revert acc. induction s as [|c s IH]; intros acc; [reflexivity|].
  change (String c s +:+ t) with (String c (s +:+ t)).
  cbn [digits_val_from]. apply IH.
Qed.

Lemma digits_val_zeros (n : nat) (s : string) :
  digits_val (zeros n +:+ s) = digits_val s.
Proof.
  unfold digits_val. rewrite digits_val_from_app. f_equal.
  induction n as [|n IH]; [reflexivity|]. cbn [zeros digits_val_from]. exact IH.
Qed.

Lemma ndigits_length (n : N) : ndigits n = Z.of_nat (String.length (str_of_N n)).
Proof. reflexivity. Qed.

Lemma ndigits_pos (n : N) : 1 ≤ ndigits n.
Proof. rewrite ndigits_length. pose proof (str_of_N_nonempty n). lia. Qed.

(** A number is below the power of ten of its digit count. *)
Lemma ndigits_upper (n : N) : Z.of_N n < 10 ^ ndigits n.
Proof.
  rewrite ndigits_length.
  destruct (digits_val_from_bounds (str_of_N n) 0 (str_of_N_all_digits n)) as [_ H].
  fold (digits_val (str_of_N n)) in H. rewrite digits_val_str_of_N in H.
  rewrite <- nat_N_Z, <- (N2Z.inj_pow 10). lia.
Qed.

Lemma str_of_N_head (n : N) :
  (0 < n)%N →
  ∃ c s, str_of_N n = String c s ∧ isdigit c = true ∧ (1 ≤ digit_val c)%N.
Proof.
  intros Hn. unfold str_of_N.
  assert (Hnorm : Decimal.unorm (N.to_uint n) = N.to_uint n).
  { rewrite <- (DecimalN.Unsigned.of_to n) at 2.
    symmetry. apply DecimalN.Unsigned.to_of. }
  assert (Hall := NilEmpty_all_digits (N.to_uint n)).
  destruct (N.to_uint n) as [|u|u|u|u|u|u|u|u|u|u] eqn:Hu;
    [discriminate Hnorm| |
     eexists _, _; split; [reflexivity|split; [reflexivity|vm_compute; discriminate]]..].
  exfalso. rewrite DecimalFacts.unorm_D0 in Hnorm. unfold Decimal.unorm in Hnorm.
  destruct (Decimal.nzhead u) eqn:Hz;
    try (rewrite Hnorm in Hz; exact (DecimalFacts.nzhead_nonzero _ _ Hz)).
  injection Hnorm as <-.
  assert (n = 0%N); [|lia].
  rewrite <- (DecimalN.Unsigned.of_to n), Hu. reflexivity.
Qed.

(** A positive number is at least the power of ten below its digit count. *)
Lemma ndigits_lower (n : N) : (0 < n)%N → 10 ^ (ndigits n - 1) ≤ Z.of_N n.
Proof.
  intros Hn. rewrite ndigits_length.
  destruct (str_of_N_head n Hn) as (c & s & Hs & Hc & H1).
  pose proof (str_of_N_all_digits n) as Hall.
  pose proof (digits_val_str_of_N n) as Hv.
  rewrite Hs in *. cbn [all_chars] in Hall. apply andb_prop in Hall as [_ Hall].
  unfold digits_val in Hv. cbn [digits_val_from] in Hv.
  destruct (digits_val_from_bounds s (10 * 0 + digit_val c)%N Hall) as [Hlo _].
  rewrite Hv in Hlo. cbn [String.length].
  replace (Z.of_nat (S (String.length s)) - 1) with (Z.of_nat (String.length s)) by lia.
  rewrite <- nat_N_Z, <- (N2Z.inj_pow 10).
  set (P := (10 ^ N.of_nat (String.length s))%N) in *. nia.
Qed.

Lemma ndigits_le (n : N) (m : Z) : 1 ≤ m → Z.of_N n < 10 ^ m → ndigits n ≤ m.
Proof.
  intros Hm Hn. destruct (N.eq_dec n 0%N) as [->|Hnz]; [exact Hm|].
  destruct (Z_le_gt_dec (ndigits n) m) as [|Hgt]; [done|exfalso].
  pose proof (ndigits_lower n ltac:(lia)) as Hlo.
  assert (10 ^ m ≤ 10 ^ (ndigits n - 1)) by (apply Z.pow_le_mono_r; lia).
  lia.
Qed.

(** ** Rounding *)

Lemma rescale_rounds (c : N) (k : Z) : rounds_half_even c k (rescale c k).
Proof.
  unfold rounds_half_even, rescale.
  destruct (Z.leb_spec 0 k) as [Hk|Hk].
  - rewrite N2Z.inj_mul, Z2N.id by (apply Z.pow_nonneg; lia). reflexivity.
  - assert (Hp : 0 < 10 ^ (- k)) by (apply Z.pow_pos_nonneg; lia).
    destruct (Z.ltb_spec (ndigits c + k) 0) as [Hsmall|Hbig].
    + pose proof (ndigits_upper c) as Hc. pose proof (ndigits_pos c) as Hn.
      assert (10 ^ ndigits c ≤ 10 ^ (- k - 1)) by (apply Z.pow_le_mono_r; lia).
      assert (10 ^ (- k) = 10 * 10 ^ (- k - 1)) as Hten.
      { rewrite <- Z.pow_succ_r by lia. f_equal. lia. }
      change (Z.of_N 0) with 0. rewrite Z.mul_0_l, Z.sub_0_r.
      rewrite Z.abs_eq by lia. split; [lia | reflexivity].
    + set (P := Z.to_N (10 ^ (- k))).
      assert (HP : Z.of_N P = 10 ^ (- k)) by (unfold P; apply Z2N.id; lia).
      rewrite <- HP.
      assert (HP0 : P ≠ 0%N) by lia.
      pose proof (N.div_mod c P HP0) as Hdm.
      pose proof (N.mod_lt c P HP0) as Hlt.
      set (q := (c / P)%N) in *. set (r := (c mod P)%N) in *.
      destruct (N.compare_spec (2 * r) P) as [Heq|Hl|Hg].
      * destruct (N.even q) eqn:Hev.
        -- split; [|done]. apply Z.abs_le. nia.
        -- split; [apply Z.abs_le; nia|]. intros _.
           rewrite N.add_1_r, N.even_succ. rewrite <- N.negb_even, Hev. reflexivity.
      * split; [apply Z.abs_le; nia|]. intros Htie. exfalso.
        replace (Z.of_N c - Z.of_N q * Z.of_N P) with (Z.of_N r) in Htie by nia.
        rewrite Z.abs_eq in Htie by lia. lia.
      * split; [apply Z.abs_le; nia|]. intros Htie. exfalso.
        replace (Z.of_N c - Z.of_N (q + 1) * Z.of_N P)
          with (- (Z.of_N P - Z.of_N r)) in Htie by nia.
        rewrite Z.abs_opp, Z.abs_eq in Htie by lia. lia.
Qed.

(** The rounded value of an amount with at most [m] digits before the
    cents has at most [m + 1] digits. *)
Lemma rescale_ndigits (c : N) (k m : Z) :
  1 ≤ m → ndigits c + k ≤ m → ndigits (rescale c k) ≤ m + 1.
Proof.
  intros Hm Hd. apply ndigits_le; [lia|].
  pose proof (ndigits_upper c) as Hc. pose proof (ndigits_pos c) as Hn.
  assert (H10m : 10 ^ m < 10 ^ (m + 1)) by (apply Z.pow_lt_mono_r; lia).
  unfold rescale.
  destruct (Z.leb_spec 0 k) as [Hk|Hk].
  - rewrite N2Z.inj_mul, Z2N.id by (apply Z.pow_nonneg; lia).
    assert (10 ^ ndigits c * 10 ^ k ≤ 10 ^ m).
    { rewrite <- Z.pow_add_r by lia. apply Z.pow_le_mono_r; lia. }
    assert (0 < 10 ^ k) by (apply Z.pow_pos_nonneg; lia).
    nia.
  - destruct (Z.ltb_spec (ndigits c + k) 0) as [Hsmall|Hbig].
    + change (Z.of_N 0) with 0. assert (0 < 10 ^ (m + 1)) by (apply Z.pow_pos_nonneg; lia).
      lia.
    + assert (Hp : 0 < 10 ^ (- k)) by (apply Z.pow_pos_nonneg; lia).
      set (P := Z.to_N (10 ^ (- k))).
      assert (HP : Z.of_N P = 10 ^ (- k)) by (unfold P; apply Z2N.id; lia).
      assert (HP0 : P ≠ 0%N) by lia.
      pose proof (N.div_mod c P HP0) as Hdm.
      pose proof (N.mod_lt c P HP0) as Hlt.
      assert (Hsplit : 10 ^ ndigits c = 10 ^ (ndigits c + k) * 10 ^ (- k)).
      { rewrite <- Z.pow_add_r by lia. f_equal. lia. }
      assert (Hle : 10 ^ (ndigits c + k) ≤ 10 ^ m) by (apply Z.pow_le_mono_r; lia).
      assert (Hq : Z.of_N (c / P) < 10 ^ (ndigits c + k)).
      { set (q := (c / P)%N) in *. set (r := (c mod P)%N) in *.
        destruct (Z_lt_le_dec (Z.of_N q) (10 ^ (ndigits c + k))); [done|]. nia. }
      destruct (N.compare_spec (2 * (c mod P)) P);
        [destruct (N.even (c / P))|..]; lia.
Qed.

End decimal_value_facts.
(** ** Reading a formatted price back *)

Section price_text_facts.
Import CStr PyDecimal.

Lemma rounds_half_even_0 (k : Z) : rounds_half_even 0 k 0.
Proof.
  unfold rounds_half_even. destruct (Z.leb_spec 0 k) as [Hk|Hk]; [reflexivity|].
  pose proof (Z.pow_pos_nonneg 10 (- k)).
  change (Z.of_N 0) with 0. rewrite Z.mul_0_l. change (Z.abs (0 - 0)) with 0.
  split; [lia | reflexivity].
Qed.

Lemma all_chars_impl (p q : ascii → bool) (s : string) :
  (∀ c, p c = true → q c = true) → all_chars p s = true → all_chars q s = true.
Proof.
  intros Hpq. induction s as [|c s IH]; [done|].
  cbn [all_chars]. intros [Hc Hs]%andb_prop. by rewrite (Hpq c Hc), IH.
Qed.

Lemma digit_plain (c : ascii) : isdigit c = true → plain c = true.
Proof.
  destruct c as [[] [] [] [] [] [] [] []]; try discriminate; reflexivity.
Qed.

(** A plain character is a code point of the ASCII range that [str.strip]
    keeps and that the conversion to ASCII hands on. *)
Lemma plain_code (c : ascii) :
  plain c = true →
  PyStr.isspace (N_of_ascii c) = false
  ∧ (N_of_ascii c =? 95)%N = false
  ∧ (0 <? N_of_ascii c)%N && (N_of_ascii c <=? 127)%N = true.
Proof.
  destruct c as [[] [] [] [] [] [] [] []]; intros H;
    try discriminate H; repeat split; reflexivity.
Qed.

Lemma lstrip_plain (s : string) :
  all_chars plain s = true → PyStr.lstrip (str s) = str s.
Proof.
  destruct s as [|c s]; [done|]. cbn [all_chars str PyStr.lstrip].
  intros [Hc _]%andb_prop. destruct (plain_code c Hc) as [Hs _]. by rewrite Hs.
Qed.

Lemma rstrip_plain (s : string) :
  all_chars plain s = true → PyStr.rstrip (str s) = str s.
Proof.
  induction s as [|c s IH]; [done|]. cbn [all_chars str PyStr.rstrip].
  intros [Hc Hs]%andb_prop. rewrite (IH Hs).
  destruct (plain_code c Hc) as [Hsp _].
  destruct (str s); [by rewrite Hsp | reflexivity].
Qed.

Lemma strip_plain (s : string) :
  all_chars plain s = true → PyStr.strip (str s) = str s.
Proof.
  intros Hs. unfold PyStr.strip. by rewrite (lstrip_plain s Hs), rstrip_plain.
Qed.

Lemma translate_plain (s : string) :
  all_chars plain s = true → translate (str s) = Some s.
Proof.
  induction s as [|c s IH]; [done|]. cbn [all_chars str translate].
  intros [Hc Hs]%andb_prop. rewrite (IH Hs).
  destruct (plain_code c Hc) as (_ & Hu & Ha). rewrite Hu, Ha.
  cbn [fmap option_fmap option_map]. by rewrite ascii_N_embedding.
Qed.

(** A text without whitespace and underscores reaches the parser as it is,
    and a dollar sign in front of it is taken off. *)
Lemma Decimal_of_str_plain (s : string) :
  all_chars plain s = true →
  Decimal_of_str (str s)
  = match parse s with
    | Some d => if representable d then Returns d else Raises InvalidOperation
    | None => Raises InvalidOperation
    end.
Proof.
  intros Hs. unfold Decimal_of_str, numeric_as_ascii.
  by rewrite (strip_plain s Hs), (translate_plain s Hs).
Qed.

Lemma price_text_dollar_plain (s : string) :
  all_chars plain s = true → price_text (str ("$" +:+ s)) = str s.
Proof.
  intros Hs. unfold price_text.
  rewrite (strip_plain ("$" +:+ s)) by exact Hs.
  change (PyStr.startswith (str "$") (str ("$" +:+ s))) with true. cbv iota.
  change (PyStr.tail (str ("$" +:+ s))) with (str s). by apply strip_plain.
Qed.

Lemma span_digits_all (s : string) :
  all_chars isdigit s = true → span_digits s = (s, "").
Proof.
  induction s as [|c s IH]; [done|]. cbn [all_chars span_digits].
  intros [Hc Hs]%andb_prop. by rewrite Hc, (IH Hs).
Qed.

Lemma scan_numeric_cents (int frac : string) :
  all_chars isdigit int = true → (0 < String.length int)%nat →
  all_chars isdigit frac = true →
  scan_numeric (int +:+ String "." frac)
  = Some (digits_val (int +:+ frac), - Z.of_nat (String.length frac)).
Proof.
  intros Hi Hn Hf. unfold scan_numeric.
  rewrite (span_digits_point int frac Hi), (span_digits_all frac Hf).
  destruct int as [|c int]; [cbn in Hn; lia|]. reflexivity.
Qed.

Lemma parse_digit_first (c : ascii) (r : string) :
  isdigit c = true →
  parse (String c r)
  = match scan_numeric (String c r) with
    | Some (n, e) => Some (Finite false n e)
    | None => None
    end.
Proof.
  destruct c as [[] [] [] [] [] [] [] []]; try discriminate; reflexivity.
Qed.

Lemma parse_minus_digit_first (c : ascii) (r : string) :
  isdigit c = true →
  parse (String "-" (String c r))
  = match scan_numeric (String c r) with
    | Some (n, e) => Some (Finite true n e)
    | None => None
    end.
Proof.
  destruct c as [[] [] [] [] [] [] [] []]; try discriminate; reflexivity.
Qed.

Lemma substring_0_length (s : string) : String.substring 0 (String.length s) s = s.
Proof. induction s as [|c s IH]; [done|]. cbn [String.length String.substring]. by rewrite IH. Qed.

Lemma substring_split (n m : nat) (s : string) :
  (n + m = String.length s)%nat →
  String.substring 0 n s +:+ String.substring n m s = s.
Proof.
  revert n. induction s as [|c s IH]; intros n Hs; cbn [String.length] in Hs.
  - destruct n, m; try discriminate Hs. reflexivity.
  - destruct n as [|n].
    + cbn [Nat.add] in Hs. subst m.
      change (String.substring 0 0 (String c s)) with EmptyString.
      apply (substring_0_length (String c s)).
    + cbn [String.substring].
      change (String c (String.substring 0 n s) +:+ String.substring n m s)
        with (String c (String.substring 0 n s +:+ String.substring n m s)).
      rewrite IH; [done|]. cbn in Hs. lia.
Qed.

(** The text of a decimal with two fractional digits: sign, integer digits,
    point, two digits; read back, the digits give the coefficient. *)
Lemma Decimal_str_cents (sg : bool) (q : N) :
  ∃ int frac,
    Decimal_str (Finite sg q (-2))
    = (if sg then "-" else "") +:+ int +:+ String "." frac
    ∧ all_chars isdigit int = true ∧ (0 < String.length int)%nat
    ∧ all_chars isdigit frac = true ∧ String.length frac = 2%nat
    ∧ digits_val (int +:+ frac) = q.
Proof.
  unfold Decimal_str.
  pose proof (str_of_N_all_digits q) as Hd.
  pose proof (str_of_N_nonempty q) as Hne.
  pose proof (digits_val_str_of_N q) as Hv.
  set (d := str_of_N q) in *.
  assert (Hlen : 1 ≤ Z.of_nat (String.length d)) by lia.
  set (len := Z.of_nat (String.length d)) in *.
  cbv zeta beta.
  change (-2 <=? 0) with true. cbn [andb].
  rewrite (proj2 (Z.ltb_lt (-6) (-2 + len))) by lia.
  replace (-2 + len - (-2 + len)) with 0 by lia.
  change (0 =? 0) with true. cbv iota.
  destruct (Z.leb_spec (-2 + len) 0) as [Hle|Hgt].
  - exists "0", (zeros (Z.to_nat (- (-2 + len))) +:+ d).
    rewrite str_app_nil_r.
    split; [reflexivity|]. split; [reflexivity|]. split; [cbn; lia|].
    split; [by rewrite all_chars_app, all_chars_zeros, Hd|].
    split; [rewrite length_app_str, length_zeros; unfold len in *; lia|].
    change ("0" +:+ zeros (Z.to_nat (- (-2 + len))) +:+ d)
      with (zeros (S (Z.to_nat (- (-2 + len)))) +:+ d).
    by rewrite digits_val_zeros.
  - rewrite (proj2 (Z.leb_gt len (-2 + len))) by lia.
    eexists _, _. rewrite str_app_nil_r.
    split; [reflexivity|].
    split; [by apply all_chars_substring|].
    split; [rewrite length_substring; unfold len in *; lia|].
    split; [by apply all_chars_substring|].
    split; [rewrite length_substring; unfold len in *; lia|].
    rewrite substring_split; [exact Hv|]. unfold len in *. lia.
Qed.

Lemma cents_plain (sg : bool) (int frac : string) :
  all_chars isdigit int = true → all_chars isdigit frac = true →
  all_chars plain ((if sg then "-" else "") +:+ int +:+ String "." frac) = true.
Proof.
  intros Hi Hf.
  rewrite !all_chars_app. cbn [all_chars].
  rewrite (all_chars_impl isdigit plain int digit_plain Hi).
  rewrite (all_chars_impl isdigit plain frac digit_plain Hf).
  by destruct sg.
Qed.

Lemma parse_cents (sg : bool) (int frac : string) :
  all_chars isdigit int = true → (0 < String.length int)%nat →
  all_chars isdigit frac = true →
  parse ((if sg then "-" else "") +:+ int +:+ String "." frac)
  = Some (Finite sg (digits_val (int +:+ frac)) (- Z.of_nat (String.length frac))).
Proof.
  intros Hi Hn Hf.
  pose proof (scan_numeric_cents int frac Hi Hn Hf) as Hs.
  destruct int as [|c int]; [cbn in Hn; lia|].
  cbn [all_chars] in Hi. apply andb_prop in Hi as [Hc _].
  destruct sg.
  - change ("-" +:+ String c int +:+ String "." frac)
      with (String "-" (String c (int +:+ String "." frac))).
    rewrite (parse_minus_digit_first c _ Hc).
    change (String c (int +:+ String "." frac)) with (String c int +:+ String "." frac).
    by rewrite Hs.
  - change ("" +:+ String c int +:+ String "." frac)
      with (String c (int +:+ String "." frac)).
    rewrite (parse_digit_first c _ Hc).
    change (String c (int +:+ String "." frac)) with (String c int +:+ String "." frac).
    by rewrite Hs.
Qed.

(** What [quantize] returns fits the precision. *)
Lemma quantize_cents_finite_bound (d : Decimal) (sg : bool) (c : N) (x : Z) :
  quantize_cents d = Returns (Finite sg c x) → x = -2 ∧ (c = 0%N ∨ ndigits c ≤ 28).
Proof.
  destruct d as [sg' c' e|sg'|sg' p|sg' p]; cbn [quantize_cents]; try discriminate.
  destruct c' as [|c']; [intros [= <- <- <-]; by split; [|left]|].
  destruct (prec <? _); [discriminate|].
  destruct (Z.ltb_spec prec (ndigits (rescale (N.pos c') (e + 2)))) as [|Hle];
    [discriminate|].
  intros [= <- <- <-]. split; [reflexivity|right; exact Hle].
Qed.

Lemma quantize_cents_fixed (sg : bool) (q : N) :
  q = 0%N ∨ ndigits q ≤ 28 →
  representable (Finite sg q (-2)) = true
  ∧ quantize_cents (Finite sg q (-2)) = Returns (Finite sg q (-2)).
Proof.
  intros Hq. destruct q as [|p]; [by split|].
  destruct Hq as [|Hq]; [discriminate|].
  pose proof (ndigits_pos (N.pos p)) as Hn.
  split.
  - cbn [representable]. apply andb_true_intro. split; [reflexivity|].
    apply Z.leb_le. unfold MAX_EMAX. lia.
  - cbn [quantize_cents].
    change (-2 + 2) with 0. rewrite Z.add_0_r.
    rewrite (proj2 (Z.ltb_ge prec (ndigits (N.pos p)))) by exact Hq.
    change (rescale (N.pos p) 0) with (N.pos p * 1)%N. rewrite N.mul_1_r.
    by rewrite (proj2 (Z.ltb_ge prec (ndigits (N.pos p)))) by exact Hq.
Qed.

(** A formatted amount formats to itself. *)
Lemma format_price_of_cents (sg : bool) (q : N) :
  q = 0%N ∨ ndigits q ≤ 28 →
  format_price (PStr (str ("$" +:+ Decimal_str (Finite sg q (-2)))))
  = Returns (str ("$" +:+ Decimal_str (Finite sg q (-2)))).
Proof.
  intros Hq.
  destruct (Decimal_str_cents sg q) as (int & frac & Heq & Hi & Hn & Hf & Hl & Hv).
  destruct (quantize_cents_fixed sg q Hq) as [Hrep Hquant].
  pose proof (cents_plain sg int frac Hi Hf) as Hplain.
  rewrite format_price_unfold by discriminate.
  rewrite Heq at 1.
  rewrite (price_text_dollar_plain _ Hplain), (Decimal_of_str_plain _ Hplain).
  rewrite (parse_cents sg int frac Hi Hn Hf), Hv, Hl.
  change (- Z.of_nat 2) with (-2). rewrite Hrep, Hquant. reflexivity.
Qed.

End price_text_facts.

Section format_price_facts.
Import CStr PyDecimal.

Lemma lower_digits (s : string) : all_chars isdigit s = true → lower s = s.
Proof.
  induction s as [|c s IH]; [done|]. cbn [all_chars lower].
  intros [Hc Hs]%andb_prop. rewrite (IH Hs). f_equal.
  destruct c as [[] [] [] [] [] [] [] []]; try discriminate Hc; reflexivity.
Qed.

Lemma parse_NaN (sg : bool) (t : string) :
  all_chars isdigit t = true →
  parse ((if sg then "-" else "") +:+ "NaN" +:+ t) = Some (NaN sg (digits_val t)).
Proof.
  intros Ht.
  assert (Hbody : ∀ sg',
    (let l := lower ("NaN" +:+ t) in
     if String.eqb l "inf" || String.eqb l "infinity" then Some (Infinity sg')
     else if startswith "nan" l then
       match scan_payload (String.substring 3 (String.length l - 3) l) with
       | Some p => Some (NaN sg' p)
       | None => None
       end
     else None) = Some (NaN sg' (digits_val t))).
  { intros sg'. cbv zeta.
    change (lower ("NaN" +:+ t)) with ("nan" +:+ lower t).
    rewrite (lower_digits t Ht).
    change (String.eqb ("nan" +:+ t) "inf") with false.
    change (String.eqb ("nan" +:+ t) "infinity") with false.
    change (startswith "nan" ("nan" +:+ t)) with true.
    cbv iota. cbn [orb].
    change (String.substring 3 (String.length ("nan" +:+ t) - 3) ("nan" +:+ t))
      with (String.substring 0 (String.length t - 0) t).
    rewrite Nat.sub_0_r, substring_0_length.
    unfold scan_payload. by rewrite Ht. }
  destruct sg; [exact (Hbody true) | exact (Hbody false)].
Qed.

Lemma NaN_plain (sg : bool) (t : string) :
  all_chars isdigit t = true →
  all_chars plain ((if sg then "-" else "") +:+ "NaN" +:+ t) = true.
Proof.
  intros Ht. rewrite !all_chars_app.
  rewrite (all_chars_impl isdigit plain t digit_plain Ht).
  by destruct sg.
Qed.

(** A formatted quiet NaN formats to itself. *)
Lemma format_price_of_NaN (sg : bool) (p : N) :
  (p < Z.to_N (10 ^ prec))%N →
  format_price (PStr (str ("$" +:+ Decimal_str (NaN sg p))))
  = Returns (str ("$" +:+ Decimal_str (NaN sg p))).
Proof.
  intros Hp. cbn [Decimal_str].
  set (t := if (p =? 0)%N then "" else str_of_N p).
  assert (Ht : all_chars isdigit t = true).
  { unfold t. destruct (p =? 0)%N; [reflexivity | apply str_of_N_all_digits]. }
  assert (Hv : digits_val t = p).
  { unfold t. destruct (N.eqb_spec p 0) as [->|]; [reflexivity|].
    apply digits_val_str_of_N. }
  pose proof (NaN_plain sg t Ht) as Hplain.
  rewrite format_price_unfold by (by destruct sg).
  rewrite (price_text_dollar_plain _ Hplain), (Decimal_of_str_plain _ Hplain).
  rewrite (parse_NaN sg t Ht), Hv.
  cbn [representable quantize_cents mbind result_bind].
  rewrite (N.mod_small p _ Hp). cbn [Decimal_str]. fold t. reflexivity.
Qed.

End format_price_facts.
(** Formatting is idempotent: a price that [format_price] returned formats
    to itself. *)
Theorem format_price_idempotent (v : PyVal) (res : pystr) :
  format_price v = Returns res → format_price (PStr res) = Returns res.
Proof.
  destruct v as [|s]; [intros [= <-]; reflexivity|].
  destruct (decide (s = [])) as [->|Hs]; [intros [= <-]; reflexivity|].
  rewrite (format_price_unfold s Hs).
  destruct (PyDecimal.Decimal_of_str (price_text s)) as [d|e] eqn:Hd;
    [|intros [= <-]; reflexivity].
  destruct (PyDecimal.quantize_cents d) as [q|e] eqn:Hq; [|discriminate].
  intros [= <-].
  destruct (quantize_cents_returns d q Hq) as [(sg & c & ->)|(sg & p & -> & ->)].
  - apply format_price_of_cents.
    by destruct (quantize_cents_finite_bound _ _ _ _ Hq) as [_ ?].
  - apply format_price_of_NaN. apply N.mod_lt. discriminate.
Qed.

Lemma format_price_idempotent_witness :
  format_price (PStr (str " $ 1_234.5 ")) = Returns (str "$1234.50")
  ∧ format_price (PStr (str "$1234.50")) = Returns (str "$1234.50").
Proof.
  assert (H : format_price (PStr (str " $ 1_234.5 ")) = Returns (str "$1234.50"))
    by (vm_compute; reflexivity).
  split; [exact H | exact (format_price_idempotent _ _ H)].
Defined.

(** The formatted amount is the parsed decimal rounded to the cent, ties to
    the even cent; the sign is kept. *)
Theorem format_price_rounds_to_cent
    (v : pystr) (sg : bool) (c : N) (e : Z) (res : pystr) :
  PyDecimal.Decimal_of_str (price_text v) = Returns (PyDecimal.Finite sg c e) →
  format_price (PStr v) = Returns res →
  ∃ q, res = str ("$" +:+ PyDecimal.Decimal_str (PyDecimal.Finite sg q (-2)))
       ∧ rounds_half_even c (e + 2) q.
Proof.
  intros Hd.
  assert (Hv : v ≠ []) by (intros ->; discriminate Hd).
  rewrite (format_price_unfold v Hv), Hd. cbn [PyDecimal.quantize_cents].
  destruct c as [|c].
  - intros [= <-]. exists 0%N. split; [reflexivity | apply rounds_half_even_0].
  - destruct (PyDecimal.prec <? _); [discriminate|].
    destruct (PyDecimal.prec <? _); [discriminate|].
    intros [= <-]. eexists. split; [reflexivity | apply rescale_rounds].
Qed.

(** An amount with at most 25 integer digits always formats, to a dollar
    amount with two fractional digits. *)
Theorem format_price_ordinary_amount (v : pystr) (sg : bool) (c : N) (e : Z) :
  PyDecimal.Decimal_of_str (price_text v) = Returns (PyDecimal.Finite sg c e) →
  PyDecimal.ndigits c + e ≤ 25 →
  ∃ res, format_price (PStr v) = Returns res ∧ is_dollar_amount res = true.
Proof.
  intros Hd Hn.
  assert (Hv : v ≠ []) by (intros ->; discriminate Hd).
  rewrite (format_price_unfold v Hv), Hd. cbn [PyDecimal.quantize_cents].
  destruct c as [|c].
  - eexists. split; [reflexivity | apply dollar_amount_finite].
  - rewrite (proj2 (Z.ltb_ge PyDecimal.prec _)) by (unfold PyDecimal.prec; lia).
    rewrite (proj2 (Z.ltb_ge PyDecimal.prec _)).
    + eexists. split; [reflexivity | apply dollar_amount_finite].
    + apply (rescale_ndigits (N.pos c) (e + 2) 27); lia.
Qed.
(** The result depends on the cell through [price_text] only. *)
Lemma format_price_text (v : pystr) :
  format_price (PStr v)
  = match PyDecimal.Decimal_of_str (price_text v) with
    | Raises _ => Returns (str "$0.00")
    | Returns d =>
        q ← PyDecimal.quantize_cents d;
        Returns (str ("$" +:+ PyDecimal.Decimal_str q))
    end.
Proof.
  destruct (decide (v = [])) as [->|Hv]; [reflexivity|].
  by apply format_price_unfold.
Qed.

(** Whitespace around the price does not change the result. *)
Theorem format_price_ignores_surrounding_space (l s r : pystr) :
  forallb PyStr.isspace l = true →
  forallb PyStr.isspace r = true →
  format_price (PStr (l ++ s ++ r)) = format_price (PStr s).
Proof.
  intros Hl Hr. by rewrite !format_price_text, price_text_space.
Qed.

(** A no-break space before the price, an ideographic space and a space
    after it. *)
Lemma format_price_ignores_surrounding_space_witness :
  forallb PyStr.isspace [160]%N = true
  ∧ forallb PyStr.isspace [12288; 32]%N = true
  ∧ format_price (PStr ([160] ++ str "$7.5" ++ [12288; 32])%N)
    = format_price (PStr (str "$7.5")).
Proof.
  split; [reflexivity|]. split; [reflexivity|].
  apply (format_price_ignores_surrounding_space [160]%N (str "$7.5") [12288; 32]%N);
    reflexivity.
Defined.

(** One dollar sign in front of the price, with or without whitespace
    after it, does not change the result. *)
Theorem format_price_ignores_one_dollar (s : pystr) :
  PyStr.startswith (str "$") (PyStr.strip s) = false →
  format_price (PStr (str "$" ++ s)) = format_price (PStr s).
Proof.
  intros Hs. by rewrite !format_price_text, price_text_dollar.
Qed.

Lemma format_price_ignores_one_dollar_witness :
  PyStr.startswith (str "$") (PyStr.strip (str " 7.5")) = false
  ∧ format_price (PStr (str "$" ++ str " 7.5")) = format_price (PStr (str " 7.5")).
Proof.
  split; [reflexivity|].
  apply (format_price_ignores_one_dollar (str " 7.5")). reflexivity.
Defined.
(** ** Tables *)



Lemma edition_code_map_values_normalized :
  map_Forall (λ _ v, PyStr.upper v = v ∧ PyStr.strip v = v) edition_code_map.
Proof.
  apply map_Forall_to_list.
  assert (H : ∃ l, map_to_list edition_code_map = l
                   ∧ forallb (λ kv, bool_decide (PyStr.upper kv.2 = kv.2)
                                    && bool_decide (PyStr.strip kv.2 = kv.2)) l = true).
  { eexists. split; [vm_compute; reflexivity | vm_compute; reflexivity]. }
  destruct H as (l & -> & Hl).
  apply Forall_forall. intros [k v] Hin.
  rewrite forallb_forall in Hl. apply list_elem_of_In in Hin.
  specialize (Hl _ Hin). apply andb_prop in Hl as [H1 H2].
  by apply bool_decide_eq_true in H1, H2.
Qed.

(** ** Fields of the converted row *)

(** The seven copied fields are the input cells as they are: not stripped,
    not changed in case; a missing column gives the empty pystr and a
    [None] cell stays [None]. *)
Theorem copied_fields (old_row : InRow) (price : pystr) :
  format_price (purchase_price old_row) = Returns price →
  ∃ out,
    convert_row old_row = Returns out
    ∧ dict_lookup (str "Count") out
      = Some (default (PStr (str "")) (named old_row !! str "Count"))
    ∧ dict_lookup (str "Name") out
      = Some (default (PStr (str "")) (named old_row !! str "Name"))
    ∧ dict_lookup (str "Card Number") out
      = Some (default (PStr (str "")) (named old_row !! str "Collector Number"))
    ∧ dict_lookup (str "Condition") out
      = Some (default (PStr (str "")) (named old_row !! str "Condition"))
    ∧ dict_lookup (str "Language") out
      = Some (default (PStr (str "")) (named old_row !! str "Language"))
    ∧ dict_lookup (str "Foil") out
      = Some (default (PStr (str "")) (named old_row !! str "Foil"))
    ∧ dict_lookup (str "Tags") out
      = Some (default (PStr (str "")) (named old_row !! str "Tags"))
    ∧ dict_lookup (str "My Price") out = Some (PStr price).
Proof.
  intros Hp. exists (filled_row old_row price).
  split; [by apply convert_row_returns|].
  repeat split; reflexivity.
Qed.

Lemma copied_fields_witness :
  format_price (purchase_price padded_row) = Returns (str "$0.00")
  ∧ ∃ out,
      convert_row padded_row = Returns out
      ∧ dict_lookup (str "Count") out = Some (PStr (str " 4 "))
      ∧ dict_lookup (str "Name") out = Some (PStr (str "  island "))
      ∧ dict_lookup (str "Foil") out = Some PNone
      ∧ dict_lookup (str "Tags") out = Some (PStr (str "")).
Proof.
  split; [vm_compute; reflexivity|].
  destruct (copied_fields padded_row (str "$0.00"))
    as (out & Hc & H1 & H2 & _ & _ & _ & H6 & H7 & _);
    [vm_compute; reflexivity|].
  exists out. split; [exact Hc|].
  rewrite H1, H2, H6, H7. repeat split; vm_compute; reflexivity.
Defined.

(** An Edition code that the name table has gives its set name. *)
Theorem edition_name_from_table (old_row : InRow) (name price : pystr) :
  edition_map !! normalized_code old_row = Some name →
  format_price (purchase_price old_row) = Returns price →
  ∃ out,
    convert_row old_row = Returns out
    ∧ dict_lookup (str "Edition") out = Some (PStr name).
Proof.
  intros Hn Hp. exists (filled_row old_row price).
  split; [by apply convert_row_returns|].
  rewrite filled_row_edition. unfold get_or_None. by rewrite Hn.
Qed.

Lemma edition_name_from_table_witness :
  edition_map !! normalized_code (edition_row (str "dom")) = Some (str "Dominaria")
  ∧ format_price (purchase_price (edition_row (str "dom"))) = Returns (str "$0.00")
  ∧ ∃ out,
      convert_row (edition_row (str "dom")) = Returns out
      ∧ dict_lookup (str "Edition") out = Some (PStr (str "Dominaria")).
Proof.
  split; [vm_compute; reflexivity|]. split; [vm_compute; reflexivity|].
  apply (edition_name_from_table (edition_row (str "dom")) (str "Dominaria") (str "$0.00"));
    vm_compute; reflexivity.
Defined.



(** The output Edition Code is always in normalized form: a text that
    [upper] and [strip] leave as it is. *)
Theorem edition_code_is_normalized (old_row : InRow) (price : pystr) :
  format_price (purchase_price old_row) = Returns price →
  ∃ out code,
    convert_row old_row = Returns out
    ∧ dict_lookup (str "Edition Code") out = Some (PStr code)
    ∧ PyStr.upper code = code
    ∧ PyStr.strip code = code.
Proof.
  intros Hp. exists (filled_row old_row price).
  rewrite filled_row_edition_code. unfold get_or.
  destruct (edition_code_map !! normalized_code old_row) as [code|] eqn:Hc.
  - exists code. split; [by apply convert_row_returns|]. split; [reflexivity|].
    exact (edition_code_map_values_normalized _ _ Hc).
  - exists (normalized_code old_row).
    split; [by apply convert_row_returns|]. split; [reflexivity|].
    apply normalized_fixed.
Qed.

Lemma edition_code_is_normalized_witness :
  format_price (purchase_price (edition_row (str " isd "))) = Returns (str "$0.00")
  ∧ ∃ out code,
      convert_row (edition_row (str " isd ")) = Returns out
      ∧ dict_lookup (str "Edition Code") out = Some (PStr code)
      ∧ PyStr.upper code = code
      ∧ PyStr.strip code = code.
Proof.
  split; [vm_compute; reflexivity|].
  apply (edition_code_is_normalized (edition_row (str " isd ")) (str "$0.00")).
  vm_compute. reflexivity.
Defined.

(** A row without an Edition, with an empty one, a [None] one or one of
    whitespace only has the empty Edition Code and no Edition name. *)
Theorem blank_edition (old_row : InRow) (price : pystr) :
  forallb PyStr.isspace (edition_text old_row) = true →
  format_price (purchase_price old_row) = Returns price →
  ∃ out,
    convert_row old_row = Returns out
    ∧ dict_lookup (str "Edition") out = Some PNone
    ∧ dict_lookup (str "Edition Code") out = Some (PStr (str "")).
Proof.
  intros Hb Hp. exists (filled_row old_row price).
  split; [by apply convert_row_returns|].
  rewrite filled_row_edition, filled_row_edition_code.
  assert (Hn : normalized_code old_row = str "").
  { unfold normalized_code, PyStr.strip.
    by rewrite (lstrip_all_space _ Hb). }
  rewrite Hn. split; reflexivity.
Qed.

Lemma blank_edition_witness :
  forallb PyStr.isspace (edition_text sparse_row) = true
  ∧ forallb PyStr.isspace (edition_text (edition_row [160; 32]%N)) = true
  ∧ ∃ out,
      convert_row sparse_row = Returns out
      ∧ dict_lookup (str "Edition") out = Some PNone
      ∧ dict_lookup (str "Edition Code") out = Some (PStr (str "")).
Proof.
  split; [vm_compute; reflexivity|]. split; [vm_compute; reflexivity|].
  apply (blank_edition sparse_row (str "$0.00")); vm_compute; reflexivity.
Defined.
(** ** The written file *)

(** The record written for a row: the cells in column order, a [None] cell
    and an unknown Edition as empty fields. The writer never refuses a
    converted row. *)
Theorem written_record_of_row (old_row : InRow) (price : pystr) :
  format_price (purchase_price old_row) = Returns price →
  written_record old_row = Returns (row_record old_row price)
  ∧ length (row_record old_row price) = length output_columns.
Proof.
  intros Hp. split; [by apply written_record_priced | reflexivity].
Qed.

Lemma written_record_of_row_witness :
  format_price (purchase_price padded_row) = Returns (str "$0.00")
  ∧ written_record padded_row
    = Returns [ str " 4 "; str "0"; str "  island "; str ""; str ""; str "";
                str ""; str ""; str ""; str ""; str ""; str ""; str ""; str "";
                str ""; str ""; str ""; str ""; str "$0.00" ].
Proof.
  split; [vm_compute; reflexivity|].
  destruct (written_record_of_row padded_row (str "$0.00")) as [-> _];
    [vm_compute; reflexivity|].
  vm_compute. reflexivity.
Defined.




(** A row whose price raises ends the run: the file keeps the header and the
    records of the rows before it, and no later row is written. *)
Theorem run_stops_at_first_raise
    (good rest : list InRow) (bad : InRow) (e : exn)
    (reader_end : option exn) (before : list (list pystr)) :
  Forall priced good →
  format_price (purchase_price bad) = Raises e →
  ∃ records,
    run (good ++ bad :: rest) reader_end before = (output_columns :: records, Some e)
    ∧ Forall2 (λ old_row record,
         ∃ price, format_price (purchase_price old_row) = Returns price
                  ∧ record = row_record old_row price) good records.
Proof.
  intros Hgood Hbad.
  destruct (records_until_raise_stops good rest bad e reader_end Hgood Hbad)
    as (records & Hr & Hall).
  exists records. split; [|exact Hall].
  unfold run. by rewrite process_rows_records, Hr.
Qed.

Lemma run_stops_at_first_raise_witness :
  Forall priced [bolt_row]
  ∧ format_price (purchase_price infinity_row) = Raises InvalidOperation
  ∧ ∃ records,
      run ([bolt_row] ++ infinity_row :: [padded_row]) None []
      = (output_columns :: records, Some InvalidOperation)
      ∧ length records = 1%nat.
Proof.
  assert (H : Forall priced [bolt_row]).
  { repeat constructor; eexists; vm_compute; reflexivity. }
  assert (Hbad : format_price (purchase_price infinity_row) = Raises InvalidOperation)
    by (vm_compute; reflexivity).
  split; [exact H|]. split; [exact Hbad|].
  destruct (run_stops_at_first_raise [bolt_row] [padded_row] infinity_row
              InvalidOperation None [] H Hbad) as (records & Hr & Hall).
  exists records. split; [exact Hr|].
  symmetry. exact (Forall2_length _ _ _ Hall).
Defined.

(** ** Prices that raise *)

(** An infinity, a signaling NaN and a nonzero amount of 27 or more integer
    digits raise [InvalidOperation]. *)
Theorem format_price_raises_when (v : pystr) (d : PyDecimal.Decimal) :
  PyDecimal.Decimal_of_str (price_text v) = Returns d →
  match d with
  | PyDecimal.Infinity _ | PyDecimal.sNaN _ _ => True
  | PyDecimal.Finite _ c e => c ≠ 0%N ∧ 27 ≤ PyDecimal.ndigits c + e
  | PyDecimal.NaN _ _ => False
  end →
  format_price (PStr v) = Raises InvalidOperation.
Proof.
  intros Hd Hcase.
  assert (Hv : v ≠ []) by (intros ->; discriminate Hd).
  rewrite (format_price_unfold v Hv), Hd.
  destruct d as [sg c e|sg|sg p|sg p]; [|reflexivity|done|reflexivity].
  destruct Hcase as [Hc Hn]. destruct c as [|c]; [done|].
  cbn [PyDecimal.quantize_cents].
  by rewrite (proj2 (Z.ltb_lt PyDecimal.prec _)) by (unfold PyDecimal.prec; lia).
Qed.

Lemma format_price_raises_when_witness :
  PyDecimal.Decimal_of_str (price_text (str "$ 1e26"))
  = Returns (PyDecimal.Finite false 1 26)
  ∧ format_price (PStr (str "$ 1e26")) = Raises InvalidOperation.
Proof.
  split; [vm_compute; reflexivity|].
  apply (format_price_raises_when (str "$ 1e26") (PyDecimal.Finite false 1 26));
    [vm_compute; reflexivity|].
  split; [discriminate | vm_compute; discriminate].
Defined.

Lemma format_price_shape_witness :
  format_price (PStr (str "-.5e1")) = Returns (str "$-5.00")
  ∧ (is_dollar_amount (str "$-5.00") = true
     ∨ (is_dollar_amount (str "$-5.00") = false
        ∧ ∃ s sg p, PStr (str "-.5e1") = PStr s
                    ∧ PyDecimal.Decimal_of_str (price_text s)
                      = Returns (PyDecimal.NaN sg p))).
Proof.
  assert (H : format_price (PStr (str "-.5e1")) = Returns (str "$-5.00"))
    by (vm_compute; reflexivity).
  split; [exact H | exact (format_price_shape _ _ H)].
Defined.

Lemma format_price_rounds_to_cent_witness :
  PyDecimal.Decimal_of_str (price_text (str "$2.675"))
  = Returns (PyDecimal.Finite false 2675 (-3))
  ∧ format_price (PStr (str "$2.675")) = Returns (str "$2.68")
  ∧ ∃ q, str "$2.68" = str ("$" +:+ PyDecimal.Decimal_str (PyDecimal.Finite false q (-2)))
         ∧ rounds_half_even 2675 (-3 + 2) q.
Proof.
  assert (Hd : PyDecimal.Decimal_of_str (price_text (str "$2.675"))
               = Returns (PyDecimal.Finite false 2675 (-3)))
    by (vm_compute; reflexivity).
  assert (Hf : format_price (PStr (str "$2.675")) = Returns (str "$2.68"))
    by (vm_compute; reflexivity).
  split; [exact Hd|]. split; [exact Hf|].
  exact (format_price_rounds_to_cent (str "$2.675") false 2675 (-3) (str "$2.68") Hd Hf).
Defined.

Lemma format_price_ordinary_amount_witness :
  PyDecimal.Decimal_of_str (price_text (str "1234567.891"))
  = Returns (PyDecimal.Finite false 1234567891 (-3))
  ∧ PyDecimal.ndigits 1234567891 + -3 ≤ 25
  ∧ ∃ res, format_price (PStr (str "1234567.891")) = Returns res
           ∧ is_dollar_amount res = true.
Proof.
  assert (Hd : PyDecimal.Decimal_of_str (price_text (str "1234567.891"))
               = Returns (PyDecimal.Finite false 1234567891 (-3)))
    by (vm_compute; reflexivity).
  assert (Hn : PyDecimal.ndigits 1234567891 + -3 ≤ 25) by (vm_compute; discriminate).
  split; [exact Hd|]. split; [exact Hn|].
  exact (format_price_ordinary_amount (str "1234567.891") false 1234567891 (-3) Hd Hn).
Defined.
(** ** Reading the input file *)

Section reader_facts.
Context {V : Type}.

Lemma dict_literal_snoc (l : list (pystr * V)) (k : pystr) (v : V) :
  dict_literal (l ++ [(k, v)]) = <[k := v]> (dict_literal l).
Proof. unfold dict_literal. by rewrite foldl_snoc. Qed.

(** A display is the map of its entries, the last entry of a key first. *)
Lemma dict_literal_to_map (l : list (pystr * V)) :
  dict_literal l = list_to_map (reverse l).
Proof.
  induction l as [|[k v] l IH] using rev_ind; [reflexivity|].
  by rewrite dict_literal_snoc, reverse_snoc, IH.
Qed.


Lemma dict_literal_lookup_Some (l : list (pystr * V)) (k : pystr) (v : V) :
  NoDup l.*1 → (k, v) ∈ l → dict_literal l !! k = Some v.
Proof.
  intros Hnd Hin. rewrite dict_literal_to_map.
  apply elem_of_list_to_map; [|by apply elem_of_reverse].
  by rewrite fmap_reverse, reverse_Permutation.
Qed.

Lemma dict_literal_perm (l1 l2 : list (pystr * V)) :
  NoDup l1.*1 → l1 ≡ₚ l2 → dict_literal l1 = dict_literal l2.
Proof.
  intros Hnd Hp. rewrite !dict_literal_to_map.
  apply list_to_map_proper.
  - by rewrite fmap_reverse, reverse_Permutation.
  - by rewrite !reverse_Permutation.
Qed.

End reader_facts.

Lemma pad_lookup_other (m : gmap pystr PyVal) (keys : list pystr) (k : pystr) :
  k ∉ keys → foldl (λ m key, <[key := PNone]> m) m keys !! k = m !! k.
Proof.
  revert m. induction keys as [|key keys IH]; intros m Hk; [reflexivity|].
  apply not_elem_of_cons in Hk as [Hne Hk].
  cbn [foldl]. rewrite (IH _ Hk). by apply lookup_insert_ne.
Qed.

Lemma pad_lookup_key (m : gmap pystr PyVal) (keys : list pystr) (k : pystr) :
  k ∈ keys → foldl (λ m key, <[key := PNone]> m) m keys !! k = Some PNone.
Proof.
  revert m. induction keys as [|key keys IH]; intros m Hk;
    [by apply elem_of_nil in Hk|].
  cbn [foldl]. destruct (decide (k ∈ keys)) as [Hin|Hnin]; [by apply IH|].
  rewrite pad_lookup_other by exact Hnin.
  apply elem_of_cons in Hk as [->|Hk]; [apply lookup_insert_eq | done].
Qed.




Lemma fst_zip_take {A B : Type} (l : list A) (k : list B) :
  (zip l k).*1 = take (length k) l.
Proof.
  revert k. induction l as [|a l IH]; intros [|b k]; cbn; [done..|].
  by rewrite IH.
Qed.

Lemma NoDup_take_of {A : Type} (n : nat) (l : list A) : NoDup l → NoDup (take n l).
Proof.
  intros Hnd. rewrite <- (take_drop n l) in Hnd.
  by apply NoDup_app in Hnd as [? _].
Qed.

Lemma NoDup_not_in_drop {A : Type} (l : list A) (i n : nat) (x : A) :
  NoDup l → l !! i = Some x → (i < n)%nat → x ∉ drop n l.
Proof.
  intros Hnd Hi Hlt [j Hj]%list_elem_of_lookup.
  rewrite lookup_drop in Hj.
  pose proof (NoDup_lookup l i (n + j) x Hnd Hi Hj). lia.
Qed.

(** A cell is found under the name of its column; a column that the line
    is too short for holds [None]. *)
Theorem DictReader_row_lookup
    (fieldnames row : list pystr) (i : nat) (key : pystr) :
  NoDup fieldnames →
  fieldnames !! i = Some key →
  named (DictReader_row fieldnames row) !! key
  = Some (match row !! i with
          | Some cell => PStr cell
          | None => PNone
          end).
Proof.
  intros Hnd Hi. unfold DictReader_row.
  assert (Hlt : (i < length fieldnames)%nat) by (by eapply lookup_lt_Some).
  assert (Hd : ∀ cell, row !! i = Some cell →
            dict_literal (zip fieldnames (map PStr row)) !! key = Some (PStr cell)).
  { intros cell Hc. apply dict_literal_lookup_Some.
    - rewrite fst_zip_take. by apply NoDup_take_of.
    - apply (list_elem_of_lookup_2 _ i).
      apply lookup_zip_with_Some. exists key, (PStr cell).
      split; [reflexivity|]. split; [exact Hi|].
      change (map PStr row) with (PStr <$> row). by rewrite list_lookup_fmap, Hc. }
  destruct (Nat.ltb_spec (length fieldnames) (length row)) as [Hlong|Hshort];
    cbn [named].
  - destruct (row !! i) as [cell|] eqn:Hc; [by apply Hd|].
    apply lookup_ge_None in Hc. lia.
  - destruct (row !! i) as [cell|] eqn:Hc.
    + rewrite pad_lookup_other; [by apply Hd|].
      apply (NoDup_not_in_drop fieldnames i); [done..|].
      by eapply lookup_lt_Some.
    + apply pad_lookup_key. apply lookup_ge_None in Hc.
      apply list_elem_of_lookup. exists (i - length row)%nat.
      rewrite lookup_drop.
      by replace (length row + (i - length row))%nat with i by lia.
Qed.

Lemma DictReader_row_lookup_witness :
  NoDup name_edition_price
  ∧ named (DictReader_row name_edition_price island_line) !! str "Edition"
    = Some (PStr (str "dom"))
  ∧ named (DictReader_row name_edition_price island_line) !! str "Purchase Price"
    = Some PNone.
Proof.
  assert (H : NoDup name_edition_price).
  { apply (bool_decide_unpack _). vm_compute. exact I. }
  split; [exact H|]. split.
  - exact (DictReader_row_lookup _ island_line 1 (str "Edition") H eq_refl).
  - exact (DictReader_row_lookup _ island_line 2 (str "Purchase Price") H eq_refl).
Defined.

(** The order of the columns does not matter: two lines that pair the same
    names with the same cells are read as the same row. *)
Theorem column_order_is_irrelevant (names1 cells1 names2 cells2 : list pystr) :
  length names1 = length cells1 →
  length names2 = length cells2 →
  NoDup names1 →
  zip names1 cells1 ≡ₚ zip names2 cells2 →
  DictReader_row names1 cells1 = DictReader_row names2 cells2.
Proof.
  intros Hl1 Hl2 Hnd Hp. unfold DictReader_row.
  rewrite Hl1, Hl2, !Nat.ltb_irrefl, <- Hl1, <- Hl2, !drop_all. cbn [foldl].
  f_equal.
  assert (Hz : ∀ (ns cs : list pystr),
    zip ns (map PStr cs) = prod_map id PStr <$> zip ns cs).
  { intros ns. induction ns as [|n ns IH]; intros [|c cs]; cbn; [done..|].
    by rewrite <- IH. }
  rewrite !Hz. apply dict_literal_perm.
  - rewrite <- list_fmap_compose.
    replace (fst ∘ prod_map id PStr) with (@fst pystr pystr) by done.
    rewrite fst_zip by lia. exact Hnd.
  - by rewrite Hp.
Qed.

Lemma column_order_is_irrelevant_witness :
  length name_edition = length island_line
  ∧ length edition_name = length dom_line
  ∧ NoDup name_edition
  ∧ zip name_edition island_line ≡ₚ zip edition_name dom_line
  ∧ DictReader_row name_edition island_line = DictReader_row edition_name dom_line.
Proof.
  assert (Hnd : NoDup name_edition).
  { apply (bool_decide_unpack _). vm_compute. exact I. }
  assert (Hp : zip name_edition island_line ≡ₚ zip edition_name dom_line)
    by apply Permutation_swap.
  split; [reflexivity|]. split; [reflexivity|]. split; [exact Hnd|]. split; [exact Hp|].
  exact (column_order_is_irrelevant name_edition island_line edition_name dom_line
           eq_refl eq_refl Hnd Hp).
Defined.

Lemma zip_app_extra {A B : Type} (l : list A) (k extra : list B) :
  (length l ≤ length k)%nat → zip l (k ++ extra) = zip l k.
Proof.
  revert k. induction l as [|a l IH]; intros [|b k] Hl; cbn in *; [done|done|lia|].
  rewrite IH; [done | lia].
Qed.

Lemma named_full_line (fieldnames row : list pystr) :
  (length fieldnames ≤ length row)%nat →
  named (DictReader_row fieldnames row)
  = dict_literal (zip fieldnames (map PStr row)).
Proof.
  intros Hl. unfold DictReader_row.
  destruct (length fieldnames <? length row)%nat; cbn [named]; [reflexivity|].
  by rewrite drop_ge.
Qed.

(** The cells of a line beyond the field names do not change the converted
    row. *)
Theorem surplus_cells_are_ignored (fieldnames cells extra : list pystr) :
  (length fieldnames ≤ length cells)%nat →
  convert_row (DictReader_row fieldnames (cells ++ extra))
  = convert_row (DictReader_row fieldnames cells).
Proof.
  intros Hl.
  assert (Hn : named (DictReader_row fieldnames (cells ++ extra))
               = named (DictReader_row fieldnames cells)).
  { rewrite !named_full_line by (rewrite ?length_app; lia).
    by rewrite map_app, zip_app_extra by (by rewrite length_map). }
  rewrite !convert_row_unfold.
  unfold filled_row, purchase_price, row_get. by rewrite Hn.
Qed.

Lemma surplus_cells_are_ignored_witness :
  (length name_edition ≤ length island_line)%nat
  ∧ surplus (DictReader_row name_edition (island_line ++ [str "x"; str "y"]))
    = Some [str "x"; str "y"]
  ∧ convert_row (DictReader_row name_edition (island_line ++ [str "x"; str "y"]))
    = convert_row (DictReader_row name_edition island_line).
Proof.
  assert (H : (length name_edition ≤ length island_line)%nat) by (cbn; lia).
  split; [exact H|]. split; [reflexivity|].
  exact (surplus_cells_are_ignored _ _ [str "x"; str "y"] H).
Defined.



(** ** Digits of other scripts *)


(** ** Flags of the decimal context *)

(** [format_price] leaves marks in the decimal context of the thread. A
    failure that the [try] absorbs has raised the [InvalidOperation] flag
    before the exception is caught; rounding a price raises [Inexact] and
    [Rounded]; an exact price raises none. The result never depends on the
    flags. *)
Theorem format_price_sets_flags (w : World) :
  format_price_in (PStr (str "abc")) w
  = (Returns (str "$0.00"), signal (PyDecimal.mkFlags true false false) w)
  ∧ format_price_in (PStr (str "3.005")) w
    = (Returns (str "$3.00"), signal (PyDecimal.mkFlags false true true) w)
  ∧ format_price_in (PStr (str "$3.5")) w
    = (Returns (str "$3.50"), w)
  ∧ ∀ value, (format_price_in value w).1 = format_price value.
Proof.
  assert (H1 : format_price (PStr (str "abc")) = Returns (str "$0.00"))
    by (vm_compute; reflexivity).
  assert (F1 : format_price_signals (PStr (str "abc"))
               = PyDecimal.mkFlags true false false)
    by (vm_compute; reflexivity).
  assert (H2 : format_price (PStr (str "3.005")) = Returns (str "$3.00"))
    by (vm_compute; reflexivity).
  assert (F2 : format_price_signals (PStr (str "3.005"))
               = PyDecimal.mkFlags false true true)
    by (vm_compute; reflexivity).
  assert (H3 : format_price (PStr (str "$3.5")) = Returns (str "$3.50"))
    by (vm_compute; reflexivity).
  assert (F3 : format_price_signals (PStr (str "$3.5")) = PyDecimal.no_flags)
    by (vm_compute; reflexivity).
  rewrite !format_price_in_eq, H1, F1, H2, F2, H3, F3, signal_no_flags.
  repeat split. intros value. by rewrite format_price_in_eq.
Qed.
